(** * confluence-server: a shallow embedding of [src/confluence/confluence-server.py]

    The server is a thin adapter between a host protocol (four request kinds)
    and a wiki REST API.  The embedding follows the source function by
    function:

    - Python values that come out of [response.json()] or arrive as tool
      [arguments] are values of [json];
    - the handlers are programs of a small free monad [prog] whose only
      effect is the outbound [client.get] and whose failures are Python
      exceptions;
    - the module-level start-up code (lines 12-31) is the function [startup],
      whose result, the record [globals], is passed read-only to every
      handler.

    Conventions of the model.  A Python [str] is a [string]; each character
    stands for the code point of the same number, so the model covers the
    code points U+0000..U+00FF.  A JSON number is a Python [int]; floats are
    outside the model.  A [pydantic.AnyUrl] is represented by its text: the
    one that [list_resources] builds is the parsed and rewritten URL
    ([Url.spaces]), the one that [read_resource] receives is what [str]
    gives for it. *)

From Stdlib Require Import String Ascii List ZArith NArith Bool Lia DecimalString.
Import ListNotations.
Local Open Scope string_scope.
Local Open Scope Z_scope.

Set Implicit Arguments.

(* ------------------------------------------------------------------ *)
(** ** Python strings *)

Module PyStr.

(** [s.startswith(p)] *)
Fixpoint startswith (s p : string) : bool :=
  match p, s with
  | EmptyString, _ => true
  | String _ _, EmptyString => false
  | String a p', String b s' => Ascii.eqb a b && startswith s' p'
  end.

(** [s.split(sep)] for a one-character separator: the list is never
    empty, and an empty piece is kept wherever two separators touch. *)
Fixpoint split (sep : ascii) (s : string) : list string :=
  match s with
  | EmptyString => [EmptyString]
  | String c s' =>
      if Ascii.eqb c sep then EmptyString :: split sep s'
      else match split sep s' with
           | [] => [String c EmptyString]
           | piece :: rest => String c piece :: rest
           end
  end.

(** [l[-1]]; [None] stands for the IndexError of an empty list. *)
Fixpoint last_item (l : list string) : option string :=
  match l with
  | [] => None
  | [x] => Some x
  | _ :: l' => last_item l'
  end.

(** [sep.join(l)] *)
Fixpoint join (sep : string) (l : list string) : string :=
  match l with
  | [] => EmptyString
  | [x] => x
  | x :: l' => x ++ sep ++ join sep l'
  end.

(** [c * n] for a one-character string [c]. *)
Fixpoint replicate (n : nat) (c : ascii) : string :=
  match n with
  | O => EmptyString
  | S n' => String c (replicate n' c)
  end.

Definition code (c : ascii) : N := N_of_ascii c.

Definition dquote : ascii := "034"%char.
Definition backslash : ascii := "092"%char.
Definition LF : ascii := "010"%char.

(** [all(ord(c) < 128 for c in s)] *)
Fixpoint isascii (s : string) : bool :=
  match s with
  | EmptyString => true
  | String c s' => N.ltb (code c) 128 && isascii s'
  end.

Definition hexdigit (n : N) : ascii :=
  if N.ltb n 10 then ascii_of_N (48 + n) else ascii_of_N (87 + n).

(** Two lower-case hexadecimal digits of a character. *)
Definition hex2 (c : ascii) : string :=
  String (hexdigit (N.div (code c) 16))
    (String (hexdigit (N.modulo (code c) 16)) EmptyString).

(** [str(n)] for an [int]. *)
Definition of_int (z : Z) : string := NilZero.string_of_int (Z.to_int z).

Fixpoint contains (c : ascii) (s : string) : bool :=
  match s with
  | EmptyString => false
  | String d s' => Ascii.eqb c d || contains c s'
  end.

Fixpoint flat_map (f : ascii -> string) (s : string) : string :=
  match s with
  | EmptyString => EmptyString
  | String c s' => f c ++ flat_map f s'
  end.

End PyStr.

(* ------------------------------------------------------------------ *)
(** ** JSON values as Python objects *)

#[local] Unset Elimination Schemes.
Inductive json : Type :=
| JNull
| JBool (b : bool)
| JInt (z : Z)
| JStr (s : string)
| JArr (items : list json)
| JObj (fields : list (string * json)).
#[local] Set Elimination Schemes.

(** Python exceptions that the modelled code can raise. *)
Inductive exception : Type :=
| ValueError (msg : string)
| KeyError (key : string)
| TypeError
| AttributeError
| UnicodeEncodeError
| UnicodeDecodeError
| ValidationError
| IndexError
| JSONDecodeError
| TransportError (msg : string)
| HTTPStatusError (status : Z) (body : option json).

(** Results of pure but fallible Python expressions. *)
Inductive result (A : Type) : Type :=
| Ok (a : A)
| Err (e : exception).
Arguments Ok {A} a.
Arguments Err {A} e.

Module Py.

(** Truth value of an object, as tested by [not x]. *)
Definition truthy (v : json) : bool :=
  match v with
  | JNull => false
  | JBool b => b
  | JInt z => negb (Z.eqb z 0)
  | JStr s => match s with EmptyString => false | _ => true end
  | JArr l => match l with [] => false | _ => true end
  | JObj l => match l with [] => false | _ => true end
  end.

(** Dictionary lookup; a [dict] decoded from JSON has one entry per key. *)
Fixpoint lookup (k : string) (fields : list (string * json)) : option json :=
  match fields with
  | [] => None
  | (k', v) :: rest => if String.eqb k k' then Some v else lookup k rest
  end.

(** [obj.get(k, default)]: only a [dict] has the method. *)
Definition get (obj : json) (k : string) (default : json) : result json :=
  match obj with
  | JObj fields =>
      match lookup k fields with
      | Some v => Ok v
      | None => Ok default
      end
  | _ => Err AttributeError
  end.

(** [obj[k]] for a string [k]. *)
Definition getitem (obj : json) (k : string) : result json :=
  match obj with
  | JObj fields =>
      match lookup k fields with
      | Some v => Ok v
      | None => Err (KeyError k)
      end
  | _ => Err TypeError
  end.

(** The items visited by [for x in obj]. *)
Definition iter (obj : json) : result (list json) :=
  match obj with
  | JArr items => Ok items
  | JObj fields => Ok (map (fun kv => JStr (fst kv)) fields)
  | JStr s => Ok (map (fun c => JStr (String c EmptyString)) (list_ascii_of_string s))
  | _ => Err TypeError
  end.

(** [repr(s)] of a string: the quote is a double quote only when the
    text has a single quote and no double quote. *)
Definition repr_quote (s : string) : ascii :=
  if PyStr.contains "'"%char s && negb (PyStr.contains PyStr.dquote s)
  then PyStr.dquote else "'"%char.

Definition printable (c : ascii) : bool :=
  let n := PyStr.code c in
  (N.leb 32 n && N.ltb n 127) || (N.leb 161 n && negb (N.eqb n 173)).

Definition repr_char (q c : ascii) : string :=
  if Ascii.eqb c q || Ascii.eqb c PyStr.backslash then String PyStr.backslash (String c EmptyString)
  else if Ascii.eqb c (ascii_of_N 9) then "\t"
  else if Ascii.eqb c (ascii_of_N 10) then "\n"
  else if Ascii.eqb c (ascii_of_N 13) then "\r"
  else if printable c then String c EmptyString
  else "\x" ++ PyStr.hex2 c.

Definition repr_str (s : string) : string :=
  let q := repr_quote s in
  String q (PyStr.flat_map (repr_char q) s ++ String q EmptyString).

(** [repr(v)] *)
Fixpoint repr (v : json) : string :=
  match v with
  | JNull => "None"
  | JBool true => "True"
  | JBool false => "False"
  | JInt z => PyStr.of_int z
  | JStr s => repr_str s
  | JArr items =>
      "[" ++ PyStr.join ", " ((fix each (l : list json) : list string :=
                                match l with
                                | [] => []
                                | x :: l' => repr x :: each l'
                                end) items) ++ "]"
  | JObj fields =>
      "{" ++ PyStr.join ", " ((fix each (l : list (string * json)) : list string :=
                                match l with
                                | [] => []
                                | (k, x) :: l' => (repr_str k ++ ": " ++ repr x) :: each l'
                                end) fields) ++ "}"
  end.

(** [str(v)], which is what an f-string placeholder [{v}] inserts. *)
Definition str (v : json) : string :=
  match v with
  | JStr s => s
  | _ => repr v
  end.

End Py.

(* ------------------------------------------------------------------ *)
(** ** [json.dumps(v, indent=n)]

    With an indent the encoder puts every item of a non-empty list or
    dict on a line of its own, separates items with a comma and a key from
    its value with a colon and a space, and escapes every character outside
    the printable ASCII range (ensure_ascii). *)

Module Json.

Definition escape_char (c : ascii) : string :=
  if Ascii.eqb c PyStr.dquote then String PyStr.backslash (String PyStr.dquote EmptyString)
  else if Ascii.eqb c PyStr.backslash then String PyStr.backslash (String PyStr.backslash EmptyString)
  else if Ascii.eqb c (ascii_of_N 8) then "\b"
  else if Ascii.eqb c (ascii_of_N 12) then "\f"
  else if Ascii.eqb c (ascii_of_N 10) then "\n"
  else if Ascii.eqb c (ascii_of_N 13) then "\r"
  else if Ascii.eqb c (ascii_of_N 9) then "\t"
  else if N.leb 32 (PyStr.code c) && N.leb (PyStr.code c) 126 then String c EmptyString
  else "\u00" ++ PyStr.hex2 c.

Definition encode_str (s : string) : string :=
  String PyStr.dquote (PyStr.flat_map escape_char s ++ String PyStr.dquote EmptyString).

(** A line break followed by [indent * level] spaces. *)
Definition newline_indent (indent level : nat) : string :=
  String PyStr.LF (PyStr.replicate (indent * level) " "%char).

Fixpoint encode (indent level : nat) (v : json) : string :=
  match v with
  | JNull => "null"
  | JBool true => "true"
  | JBool false => "false"
  | JInt z => PyStr.of_int z
  | JStr s => encode_str s
  | JArr [] => "[]"
  | JArr (x :: items) =>
      "[" ++ newline_indent indent (S level) ++ encode indent (S level) x
      ++ (fix rest (l : list json) : string :=
            match l with
            | [] => EmptyString
            | y :: l' =>
                "," ++ newline_indent indent (S level)
                ++ encode indent (S level) y ++ rest l'
            end) items
      ++ newline_indent indent level ++ "]"
  | JObj [] => "{}"
  | JObj ((k, x) :: fields) =>
      "{" ++ newline_indent indent (S level)
      ++ encode_str k ++ ": " ++ encode indent (S level) x
      ++ (fix rest (l : list (string * json)) : string :=
            match l with
            | [] => EmptyString
            | (k', y) :: l' =>
                "," ++ newline_indent indent (S level)
                ++ encode_str k' ++ ": " ++ encode indent (S level) y ++ rest l'
            end) fields
      ++ newline_indent indent level ++ "}"
  end.

Definition dumps (v : json) (indent : nat) : string := encode indent 0 v.

End Json.

(* ------------------------------------------------------------------ *)
(** ** [str.encode('ascii')] and [base64.b64encode] *)

Module Base64.

(** [s.encode('ascii')]: one byte per character, and UnicodeEncodeError
    as soon as one character is not ASCII. *)
Definition encode_ascii (s : string) : result (list Byte.byte) :=
  if PyStr.isascii s then Ok (list_byte_of_string s) else Err UnicodeEncodeError.

(** The character of a 6-bit value in the standard alphabet. *)
Definition alphabet (i : N) : ascii :=
  if N.ltb i 26 then ascii_of_N (65 + i)
  else if N.ltb i 52 then ascii_of_N (71 + i)
  else if N.ltb i 62 then ascii_of_N (i - 4)
  else if N.eqb i 62 then "+"%char
  else "/"%char.

Definition sextet (n : N) (k : N) : ascii :=
  alphabet (N.land (N.shiftr n (6 * k)) 63).

Definition pad : ascii := "="%char.

Fixpoint b64encode (l : list Byte.byte) : string :=
  match l with
  | [] => EmptyString
  | [a] =>
      let n := N.shiftl (Byte.to_N a) 16 in
      String (sextet n 3) (String (sextet n 2) (String pad (String pad EmptyString)))
  | [a; b] =>
      let n := N.lor (N.shiftl (Byte.to_N a) 16) (N.shiftl (Byte.to_N b) 8) in
      String (sextet n 3) (String (sextet n 2) (String (sextet n 1) (String pad EmptyString)))
  | a :: b :: c :: rest =>
      let n := N.lor (N.lor (N.shiftl (Byte.to_N a) 16) (N.shiftl (Byte.to_N b) 8))
                     (Byte.to_N c) in
      String (sextet n 3) (String (sextet n 2) (String (sextet n 1) (String (sextet n 0)
        (b64encode rest))))
  end.

End Base64.

(* ------------------------------------------------------------------ *)
(** ** The HTTP boundary *)

(** The arguments of one [client.get(url, headers=..., params=...)]. *)
Record Request : Type := mkRequest {
  url : string;
  req_headers : list (string * string);
  params : list (string * json)
}.

(** What the code reads of an [httpx.Response]: the status code and what
    [response.json()], which is [json.loads] on the bytes of the body, makes
    of the body.  [payload] is the value it decodes, [None] when it decodes
    none; [text_body] tells whether the bytes are text at all (valid in the
    encoding [json.loads] detects, UTF-8 unless a byte-order mark says
    otherwise). *)
Record Response : Type := Build_Response {
  status_code : Z;
  payload : option json;
  text_body : bool
}.

(** A response whose body is text. *)
Definition mkResponse (status : Z) (body : option json) : Response :=
  Build_Response status body true.

(** The transport either delivers a response or raises. *)
Inductive answer : Type :=
| Answered (r : Response)
| Failed (msg : string).

Module Httpx.

Definition is_success (r : Response) : bool :=
  Z.leb 200 (status_code r) && Z.leb (status_code r) 299.

(** [response.raise_for_status()] *)
Definition raise_for_status (r : Response) : result unit :=
  if is_success r then Ok tt
  else Err (HTTPStatusError (status_code r) (payload r)).

(** [response.json()]: bytes that are not text raise UnicodeDecodeError
    when they are decoded, text that is not JSON raises JSONDecodeError. *)
Definition json (r : Response) : result json :=
  match payload r with
  | Some v => Ok v
  | None => if text_body r then Err JSONDecodeError else Err UnicodeDecodeError
  end.

End Httpx.

(* ------------------------------------------------------------------ *)
(** ** Programs: exceptions and outbound GET calls *)

Inductive prog (A : Type) : Type :=
| Ret (a : A)
| Raise (e : exception)
| Get (rq : Request) (k : answer -> prog A).
Arguments Ret {A} a.
Arguments Raise {A} e.
Arguments Get {A} rq k.

Fixpoint bind {A B : Type} (m : prog A) (f : A -> prog B) : prog B :=
  match m with
  | Ret a => f a
  | Raise e => Raise e
  | Get rq k => Get rq (fun a => bind (k a) f)
  end.

Definition lift {A : Type} (r : result A) : prog A :=
  match r with
  | Ok a => Ret a
  | Err e => Raise e
  end.

Definition rbind {A B : Type} (r : result A) (f : A -> result B) : result B :=
  match r with
  | Ok a => f a
  | Err e => Err e
  end.

Declare Scope prog_scope.
Delimit Scope prog_scope with prog.
Notation "x <- m ;; k" := (bind m (fun x => k))
  (at level 61, m at next level, right associativity) : prog_scope.
Notation "'try' x <- r ; k" := (rbind r (fun x => k))
  (at level 61, x name, r at next level, right associativity) : prog_scope.
Local Open Scope prog_scope.

(** What [client.get] makes of the transport's answer. *)
Definition received (a : answer) : result Response :=
  match a with
  | Answered r => Ok r
  | Failed msg => Err (TransportError msg)
  end.

(** [await client.get(...)] inside [async with httpx.AsyncClient()]. *)
Definition client_get (rq : Request) : prog Response :=
  Get rq (fun a => lift (received a)).

(** A list comprehension whose element expression can raise. *)
Fixpoint comprehension {A B : Type} (f : A -> result B) (l : list A) : result (list B) :=
  match l with
  | [] => Ok []
  | x :: l' =>
      try y <- f x ;
      try ys <- comprehension f l' ;
      Ok (y :: ys)
  end.

(** An upstream is any state machine that answers requests. *)
Definition upstream (W : Type) : Type := W -> Request -> W * answer.

(** Running a program against an upstream: the final upstream state, the
    calls issued in order, and how the program ended. *)
Fixpoint run {W A : Type} (up : upstream W) (w : W) (p : prog A)
  : W * list Request * result A :=
  match p with
  | Ret a => (w, [], Ok a)
  | Raise e => (w, [], Err e)
  | Get rq k =>
      let '(w1, a) := up w rq in
      let '(w2, calls, r) := run up w1 (k a) in
      (w2, rq :: calls, r)
  end.

(** The calls a program issues against an upstream. *)
Definition calls_of {W A : Type} (up : upstream W) (w : W) (p : prog A) : list Request :=
  snd (fst (run up w p)).

(* ------------------------------------------------------------------ *)
(** ** Module-level start-up (lines 12-31) *)

(** The process environment after [load_dotenv()]. *)
Definition environ : Type := string -> option string.

Record globals : Type := mkGlobals {
  CONFLUENCE_URL : string;
  EMAIL : string;
  API_TOKEN : string;
  headers : list (string * string)
}.

Module Startup.

(** Truth value of what [os.getenv] returns: [None] and the empty
    string are false. *)
Definition truthy (v : option string) : bool :=
  match v with
  | None => false
  | Some EmptyString => false
  | Some _ => true
  end.

(** The built-in [all]. *)
Definition all (l : list bool) : bool := forallb (fun b => b) l.

(** An f-string placeholder holding the result of [os.getenv]. *)
Definition fstr (v : option string) : string :=
  match v with
  | Some s => s
  | None => "None"
  end.

Definition config_error : exception :=
  ValueError "CONFLUENCE_URL, CONFLUENCE_EMAIL, and CONFLUENCE_API_TOKEN environment variables required".

Definition startup (env : environ) : result globals :=
  let confluence_url := env "CONFLUENCE_URL" in
  let email := env "CONFLUENCE_EMAIL" in
  let api_token := env "CONFLUENCE_API_TOKEN" in
  if negb (all [truthy confluence_url; truthy email; truthy api_token])
  then Err config_error
  else
    let auth_string := fstr email ++ ":" ++ fstr api_token in
    try auth_bytes <- Base64.encode_ascii auth_string ;
    let base64_auth := Base64.b64encode auth_bytes in
    Ok {| CONFLUENCE_URL := fstr confluence_url;
          EMAIL := fstr email;
          API_TOKEN := fstr api_token;
          headers := [("Authorization", "Basic " ++ base64_auth);
                      ("Content-Type", "application/json")] |}.

End Startup.

(* ------------------------------------------------------------------ *)
(** ** [pydantic.AnyUrl] on the resource text of line 65

    [AnyUrl(text)] parses [text] as a URL and [str] of it is the parsed
    URL written out again, which is what a [Resource] carries.  The scheme
    [confluence] is not one of the special schemes, and [spaces] is read as
    the host, so for the one text the code builds, [confluence://spaces/]
    followed by the key, the parser works on what follows the host:

    - characters up to the space at the end of the text, and tabs and line
      breaks anywhere, are dropped;
    - the text up to the first [?] or [#] is the path, a [?] starts the
      query and a [#] the fragment;
    - each part is percent-encoded with its own set of characters, a
      character above U+007F as the bytes of its UTF-8 form;
    - path segments that are [.] or [..] (also spelt with [%2e]) are
      resolved and removed. *)

Module Url.

(** An upper-case hexadecimal digit. *)
Definition HEXDIGIT (n : N) : ascii :=
  if N.ltb n 10 then ascii_of_N (48 + n) else ascii_of_N (55 + n).

(** The percent-encoding of one byte. *)
Definition pct (n : N) : string :=
  String "%" (String (HEXDIGIT (N.div n 16)) (String (HEXDIGIT (N.modulo n 16)) EmptyString)).

(** The percent-encoding of one character, through UTF-8. *)
Definition utf8_pct (c : ascii) : string :=
  let n := PyStr.code c in
  if N.ltb n 128 then pct n
  else pct (192 + N.div n 64) ++ pct (128 + N.modulo n 64).

(** The characters every part encodes: controls and all that is not
    ASCII. *)
Definition control (c : ascii) : bool :=
  let n := PyStr.code c in N.ltb n 32 || N.leb 127 n.

Definition fragment_set (c : ascii) : bool :=
  Ascii.eqb c " " || Ascii.eqb c PyStr.dquote || Ascii.eqb c "<" || Ascii.eqb c ">"
  || Ascii.eqb c "`".

Definition query_set (c : ascii) : bool :=
  Ascii.eqb c " " || Ascii.eqb c PyStr.dquote || Ascii.eqb c "#" || Ascii.eqb c "<"
  || Ascii.eqb c ">".

Definition path_set (c : ascii) : bool :=
  fragment_set c || Ascii.eqb c "#" || Ascii.eqb c "?" || Ascii.eqb c "{" || Ascii.eqb c "}".

Definition encode (set : ascii -> bool) (s : string) : string :=
  PyStr.flat_map (fun c => if control c || set c then utf8_pct c else String c EmptyString) s.

(** Dropping the controls and spaces at the end of the text. *)
Fixpoint rtrim (s : string) : string :=
  match s with
  | EmptyString => EmptyString
  | String c s' =>
      match rtrim s' with
      | EmptyString => if N.leb (PyStr.code c) 32 then EmptyString else String c EmptyString
      | t => String c t
      end
  end.

Definition tab_or_newline (c : ascii) : bool :=
  let n := PyStr.code c in N.eqb n 9 || N.eqb n 10 || N.eqb n 13.

Fixpoint drop_tabs (s : string) : string :=
  match s with
  | EmptyString => EmptyString
  | String c s' => if tab_or_newline c then drop_tabs s' else String c (drop_tabs s')
  end.

(** The text before the first character of [stop], and that character with
    what follows it. *)
Fixpoint cut (stop : ascii -> bool) (s : string) : string * option (ascii * string) :=
  match s with
  | EmptyString => (EmptyString, None)
  | String c s' =>
      if stop c then (EmptyString, Some (c, s'))
      else let (before, after) := cut stop s' in (String c before, after)
  end.

Definition one_of (l : list string) (s : string) : bool :=
  existsb (String.eqb s) l.

(** The spellings of the dot segments. *)
Definition single_dot : string -> bool := one_of ["."; "%2e"; "%2E"].

Definition double_dot : string -> bool :=
  one_of [".."; ".%2e"; ".%2E"; "%2e."; "%2E."; "%2e%2e"; "%2e%2E"; "%2E%2e"; "%2E%2E"].

(** The path state of the parser: [path] holds the segments kept so far,
    [segs] the segments still to read; the last segment is followed by the
    end of the path, the others by a slash. *)
Fixpoint segments (path : list string) (segs : list string) : list string :=
  match segs with
  | [] => path
  | [seg] =>
      if double_dot seg then removelast path ++ [EmptyString]
      else if single_dot seg then path ++ [EmptyString]
      else path ++ [seg]
  | seg :: rest =>
      segments (if double_dot seg then removelast path
                else if single_dot seg then path
                else path ++ [seg]) rest
  end.

Definition serialize_path (path : list string) : string :=
  String.concat EmptyString (map (fun seg => "/" ++ seg) path).

Definition fragment (after : option (ascii * string)) : string :=
  match after with
  | Some (_, f) => "#" ++ encode fragment_set f
  | None => EmptyString
  end.

(** [str(AnyUrl("confluence://spaces/" + rest))] *)
Definition spaces (rest : string) : string :=
  let input := drop_tabs (rtrim rest) in
  let (path, after) := cut (fun c => Ascii.eqb c "?" || Ascii.eqb c "#") input in
  "confluence://spaces"
  ++ serialize_path (segments [] (PyStr.split "/" (encode path_set path)))
  ++ match after with
     | Some ("?"%char, q) =>
         let (query, after') := cut (fun c => Ascii.eqb c "#") q in
         "?" ++ encode query_set query ++ fragment after'
     | _ => fragment after
     end.

End Url.

(* ------------------------------------------------------------------ *)
(** ** The handlers *)

Record Resource : Type := mkResource {
  uri : string;
  name : string;
  description : option string;
  mimeType : string
}.

Record Tool : Type := mkTool {
  tool_name : string;
  tool_description : string;
  inputSchema : json
}.

Section Handlers.

(** The module globals, fixed once start-up has succeeded. *)
Variable g : globals.

(** [search_confluence(query)], lines 33-41. *)
Definition search_confluence (query : json) : prog json :=
  response <- client_get {| url := CONFLUENCE_URL g ++ "/wiki/rest/api/search";
                            req_headers := headers g;
                            params := [("cql", query)] |} ;;
  _ <- lift (Httpx.raise_for_status response) ;;
  lift (try body <- Httpx.json response ; Py.getitem body "results").

(** [get_page_content(page_id)], lines 43-50. *)
Definition get_page_content (page_id : json) : prog json :=
  response <- client_get {| url := CONFLUENCE_URL g ++ "/wiki/rest/api/content/"
                                   ++ Py.str page_id ++ "?expand=body.storage";
                            req_headers := headers g;
                            params := [] |} ;;
  _ <- lift (Httpx.raise_for_status response) ;;
  lift (Httpx.json response).

(** The validation done by the [Resource] model: [description] is an
    optional string. *)
Definition Resource_new (uri name : string) (description : json) (mimeType : string)
  : result Resource :=
  match description with
  | JStr s => Ok (mkResource uri name (Some s) mimeType)
  | JNull => Ok (mkResource uri name None mimeType)
  | _ => Err ValidationError
  end.

(** The element expression of the comprehension in [list_resources],
    lines 64-69; the keyword arguments are evaluated left to right, and
    the uri is the text of the [AnyUrl] built from the f-string. *)
Definition space_resource (space : json) : result Resource :=
  try key <- Py.getitem space "key" ;
  let uri := Url.spaces (Py.str key) in
  try nm <- Py.getitem space "name" ;
  let name := "Space: " ++ Py.str nm in
  try d <- Py.get space "description" (JObj []) ;
  try p <- Py.get d "plain" (JObj []) ;
  try description <- Py.get p "value" (JStr EmptyString) ;
  Resource_new uri name description "application/json".

(** [list_resources()], lines 54-70. *)
Definition list_resources : prog (list Resource) :=
  response <- client_get {| url := CONFLUENCE_URL g ++ "/wiki/rest/api/space";
                            req_headers := headers g;
                            params := [] |} ;;
  spaces_data <- lift (try body <- Httpx.json response ; Py.getitem body "results") ;;
  lift (try spaces <- Py.iter spaces_data ; comprehension space_resource spaces).

(** [uri_str.split("/")[-1]] *)
Definition last_segment (uri_str : string) : result string :=
  match PyStr.last_item (PyStr.split "/" uri_str) with
  | Some s => Ok s
  | None => Err IndexError
  end.

(** [read_resource(uri)], lines 72-87. *)
Definition read_resource (uri : string) : prog string :=
  let uri_str := uri in
  if PyStr.startswith uri_str "confluence://spaces/" then
    space_key <- lift (last_segment uri_str) ;;
    response <- client_get {| url := CONFLUENCE_URL g ++ "/wiki/rest/api/space/"
                                     ++ space_key ++ "/content";
                              req_headers := headers g;
                              params := [] |} ;;
    body <- lift (Httpx.json response) ;;
    Ret (Json.dumps body 2)
  else if PyStr.startswith uri_str "confluence://pages/" then
    page_id <- lift (last_segment uri_str) ;;
    content <- get_page_content (JStr page_id) ;;
    Ret (Json.dumps content 2)
  else Raise (ValueError ("Unknown resource: " ++ uri)).

Definition string_schema (prop descr : string) : json :=
  JObj [("type", JStr "object");
        ("properties",
          JObj [(prop, JObj [("type", JStr "string"); ("description", JStr descr)])]);
        ("required", JArr [JStr prop])].

(** [list_tools()], lines 89-120. *)
Definition list_tools : prog (list Tool) :=
  Ret [ {| tool_name := "search_content";
           tool_description := "Search Confluence content using CQL";
           inputSchema := string_schema "query" "Confluence Query Language (CQL) query" |};
        {| tool_name := "get_page";
           tool_description := "Get Confluence page content by ID";
           inputSchema := string_schema "page_id" "Confluence page ID" |} ].

(** [call_tool(name, arguments)], lines 122-136. *)
Definition call_tool (name : string) (arguments : json) : prog string :=
  if String.eqb name "search_content" then
    query <- lift (Py.get arguments "query" JNull) ;;
    if negb (Py.truthy query) then Raise (ValueError "Query parameter is required")
    else
      results <- search_confluence query ;;
      Ret (Json.dumps results 2)
  else if String.eqb name "get_page" then
    page_id <- lift (Py.get arguments "page_id" JNull) ;;
    if negb (Py.truthy page_id) then Raise (ValueError "Page ID parameter is required")
    else
      content <- get_page_content page_id ;;
      Ret (Json.dumps content 2)
  else Raise (ValueError ("Unknown tool: " ++ name)).

End Handlers.

(* ------------------------------------------------------------------ *)
(** ** The file run as a script, and a host that drives the handlers *)

(** Lines 138-139: the module-level code, then [server.run_stdio()].
    The [Server] class of the mcp package has no attribute of that name
    (its entry point is [run], which is given the two streams), so once
    start-up is over the lookup raises AttributeError; the script itself
    never reads a request. *)
Definition script (env : environ) : result unit :=
  try _ <- Startup.startup env ;
  Err AttributeError.

(** The handlers are registered with the server object by the four
    decorators, for a host to call.  What follows describes such a host:
    it is the setting in which the handlers run, not something line 139
    does. *)

Inductive host_request : Type :=
| ListResources
| ReadResource (uri : string)
| ListTools
| CallTool (name : string) (arguments : json).

Inductive host_reply : Type :=
| Resources (l : list Resource)
| Tools (l : list Tool)
| Text (s : string).

(** The routing done by the four decorators. *)
Definition handle (g : globals) (rq : host_request) : prog host_reply :=
  match rq with
  | ListResources => l <- list_resources g ;; Ret (Resources l)
  | ReadResource uri => s <- read_resource g uri ;; Ret (Text s)
  | ListTools => l <- list_tools ;; Ret (Tools l)
  | CallTool name arguments => s <- call_tool g name arguments ;; Ret (Text s)
  end.

(** A host calling the handlers for one request after the other: an
    exception ends the request that raised it and is reported in its
    place. *)
Fixpoint serve {W : Type} (up : upstream W) (w : W) (g : globals) (rqs : list host_request)
  : W * list Request * list (result host_reply) :=
  match rqs with
  | [] => (w, [], [])
  | rq :: rqs' =>
      let '(w1, calls, r) := run up w (handle g rq) in
      let '(w2, calls', rs) := serve up w1 g rqs' in
      (w2, (calls ++ calls')%list, r :: rs)
  end.

(** A session of such a host over a module that was loaded with the
    environment [env]: either start-up raised, or the handlers answered the
    host's requests. *)
Inductive process : Type :=
| Crashed (e : exception)
| Served (calls : list Request) (replies : list (result host_reply)).

Definition main {W : Type} (env : environ) (up : upstream W) (w : W)
  (rqs : list host_request) : process :=
  match Startup.startup env with
  | Err e => Crashed e
  | Ok g =>
      let '(_, calls, replies) := serve up w g rqs in
      Served calls replies
  end.

(* ------------------------------------------------------------------ *)
(** ** Vocabulary of the specification *)

(** The two resource prefixes and the upstream paths. *)
Definition spaces_prefix : string := "confluence://spaces/".
Definition pages_prefix : string := "confluence://pages/".

(** [seg] is the trailing path segment of [uri]: what follows the last
    slash. *)
Definition trailing_segment (uri seg : string) : Prop :=
  exists pre, uri = pre ++ "/" ++ seg /\ PyStr.contains "/"%char seg = false.

(** The four outbound calls of the specification's client facade. *)
Definition space_listing_call (g : globals) : Request :=
  {| url := CONFLUENCE_URL g ++ "/wiki/rest/api/space";
     req_headers := headers g; params := [] |}.

Definition space_content_call (g : globals) (key : string) : Request :=
  {| url := CONFLUENCE_URL g ++ "/wiki/rest/api/space/" ++ key ++ "/content";
     req_headers := headers g; params := [] |}.

Definition search_call (g : globals) (query : json) : Request :=
  {| url := CONFLUENCE_URL g ++ "/wiki/rest/api/search";
     req_headers := headers g; params := [("cql", query)] |}.

Definition page_fetch_call (g : globals) (id : string) : Request :=
  {| url := CONFLUENCE_URL g ++ "/wiki/rest/api/content/" ++ id ++ "?expand=body.storage";
     req_headers := headers g; params := [] |}.

(** The plain-text description of a space entry, in the words of the
    specification: the value at description / plain / value when every
    level is there, the empty string when a level is missing. *)
Inductive plain_description (space : list (string * json)) : string -> Prop :=
| description_nested d p v :
    Py.lookup "description" space = Some (JObj d) ->
    Py.lookup "plain" d = Some (JObj p) ->
    Py.lookup "value" p = Some (JStr v) ->
    plain_description space v
| description_missing :
    Py.lookup "description" space = None ->
    plain_description space EmptyString
| plain_missing d :
    Py.lookup "description" space = Some (JObj d) ->
    Py.lookup "plain" d = None ->
    plain_description space EmptyString
| value_missing d p :
    Py.lookup "description" space = Some (JObj d) ->
    Py.lookup "plain" d = Some (JObj p) ->
    Py.lookup "value" p = None ->
    plain_description space EmptyString.

(** The unreserved characters of a URL: letters, digits, and the four
    marks [-], [.], [_] and [~]. *)
Definition unreserved (c : ascii) : bool :=
  let n := PyStr.code c in
  (N.leb 48 n && N.leb n 57) || (N.leb 65 n && N.leb n 90) || (N.leb 97 n && N.leb n 122)
  || N.eqb n 45 || N.eqb n 46 || N.eqb n 95 || N.eqb n 126.

Fixpoint all_chars (P : ascii -> bool) (s : string) : bool :=
  match s with
  | EmptyString => true
  | String c s' => P c && all_chars P s'
  end.

(** A key that a URL takes as it is written: unreserved characters only,
    and not one of the two dot segments. *)
Definition plain_key (key : string) : bool :=
  all_chars unreserved key && negb (String.eqb key ".") && negb (String.eqb key "..").

(** The uri of the resource listed for a space key: the text
    [confluence://spaces/{key}] itself for a plain key, and in general the
    URL that this text is parsed into. *)
Inductive listed_uri (key : string) : string -> Prop :=
| uri_as_written :
    plain_key key = true -> listed_uri key ("confluence://spaces/" ++ key)
| uri_normalised :
    listed_uri key (Url.spaces key).

(** The Resource Descriptor the specification assigns to a space entry
    of a valid listing. *)
Inductive space_descriptor : json -> Resource -> Prop :=
| space_descriptor_of space key nm descr u :
    Py.lookup "key" space = Some (JStr key) ->
    Py.lookup "name" space = Some (JStr nm) ->
    plain_description space descr ->
    listed_uri key u ->
    space_descriptor (JObj space)
      {| uri := u;
         name := "Space: " ++ nm;
         description := Some descr;
         mimeType := "application/json" |}.

(** A valid space-listing response: a success status and a JSON object
    whose [results] is the list of space entries. *)
Definition valid_listing (r : Response) (spaces : list json) : Prop :=
  Httpx.is_success r = true /\
  exists body, payload r = Some (JObj body) /\
               Py.lookup "results" body = Some (JArr spaces).

(** The header value of HTTP Basic authentication. *)
Definition basic_auth (email token : string) : string :=
  "Basic " ++ Base64.b64encode (list_byte_of_string (email ++ ":" ++ token)).

(** The value a request carries under a header name. *)
Fixpoint header (k : string) (hs : list (string * string)) : option string :=
  match hs with
  | [] => None
  | (k', v) :: hs' => if String.eqb k k' then Some v else header k hs'
  end.

(** A configuration value that is unset, or set to the empty string. *)
Definition missing_or_empty (v : option string) : Prop :=
  v = None \/ v = Some EmptyString.

(** [P] holds of every call a program can issue, whatever the answers. *)
Fixpoint every_call {A : Type} (P : Request -> Prop) (p : prog A) : Prop :=
  match p with
  | Ret _ => True
  | Raise _ => True
  | Get rq k => P rq /\ forall a, every_call P (k a)
  end.

(** A call that carries the header dictionary built at start-up. *)
Definition carries (g : globals) (rq : Request) : Prop :=
  req_headers rq = headers g.

(* ------------------------------------------------------------------ *)
(** ** Sample data *)

Module Sample.

Definition env (url email token : option string) : environ :=
  fun k =>
    if String.eqb k "CONFLUENCE_URL" then url
    else if String.eqb k "CONFLUENCE_EMAIL" then email
    else if String.eqb k "CONFLUENCE_API_TOKEN" then token
    else None.

Definition env_ok : environ :=
  env (Some "https://wiki.example") (Some "user") (Some "pass").

(** An account whose name has the letter e with an acute accent. *)
Definition env_accent : environ :=
  env (Some "https://wiki.example") (Some (String (ascii_of_N 233) "ve")) (Some "pass").

Definition g : globals :=
  {| CONFLUENCE_URL := "https://wiki.example";
     EMAIL := "user";
     API_TOKEN := "pass";
     headers := [("Authorization", "Basic dXNlcjpwYXNz");
                 ("Content-Type", "application/json")] |}.

(** An upstream that gives the same answer to every call. *)
Definition always (a : answer) : upstream unit := fun w _ => (w, a).

Definition not_found : Response :=
  mkResponse 404 (Some (JObj [("statusCode", JInt 404);
                              ("message", JStr "No space with key : NOPE")])).

Definition unauthorized : Response :=
  mkResponse 401 (Some (JObj [("message", JStr "Unauthorized")])).

Definition eng : json :=
  JObj [("key", JStr "ENG"); ("name", JStr "Engineering");
        ("description", JObj [("plain", JObj [("value", JStr "Team space")])])].

Definition ops : json :=
  JObj [("key", JStr "OPS"); ("name", JStr "Operations")].

(** A space whose key has a blank in it, and a listing of it. *)
Definition spaced : json :=
  JObj [("key", JStr "A B"); ("name", JStr "Alpha Beta")].

Definition spaced_listing : Response :=
  mkResponse 200 (Some (JObj [("results", JArr [spaced])])).

Definition listing : Response :=
  mkResponse 200 (Some (JObj [("results", JArr [eng; ops]); ("size", JInt 2)])).

(** A listing payload sent with a server-error status. *)
Definition unavailable : Response :=
  mkResponse 503 (Some (JObj [("results", JArr [ops]); ("size", JInt 1)])).

Definition page : json :=
  JObj [("id", JStr "12345"); ("title", JStr "Home")].

Definition found : Response :=
  mkResponse 200 (Some (JObj [("results", JArr [page])])).

(** A short session of host requests and what it produces. *)
Definition session : list host_request :=
  [ListResources; ListTools;
   CallTool "get_page" (JObj [("page_id", JStr "12345")]);
   ReadResource "confluence://spaces/ENG";
   CallTool "search_content" (JObj [])].

Definition session_calls : list Request :=
  Eval vm_compute in
    match main env_ok (always (Answered listing)) tt session with
    | Served calls _ => calls
    | Crashed _ => []
    end.

Definition session_replies : list (result host_reply) :=
  Eval vm_compute in
    match main env_ok (always (Answered listing)) tt session with
    | Served _ replies => replies
    | Crashed _ => []
    end.

End Sample.

(* ------------------------------------------------------------------ *)
(** ** Further vocabulary *)

(** The property names a tool's input schema lists under [required]. *)
Definition schema_required (schema : json) : list string :=
  match schema with
  | JObj fields =>
      match Py.lookup "required" fields with
      | Some (JArr items) =>
          List.flat_map (fun v => match v with JStr s => [s] | _ => [] end) items
      | _ => []
      end
  | _ => []
  end.

(** A printable ASCII character, or the line feed that the pretty-printer
    puts between lines. *)
Definition plain_char (c : ascii) : bool :=
  (N.leb 32 (PyStr.code c) && N.leb (PyStr.code c) 126) || Ascii.eqb c PyStr.LF.

Fixpoint plain_text (s : string) : bool :=
  match s with
  | EmptyString => true
  | String c s' => plain_char c && plain_text s'
  end.

(** The tools a [list_tools] program returns. *)
Definition listed_tools : list Tool :=
  match list_tools with
  | Ret tools => tools
  | _ => []
  end.

Module Fixtures.

(** The transport gives up on every call. *)
Definition refused : answer := Failed "connection refused".

(** A gateway error page: an error status and a body that is not JSON. *)
Definition bad_gateway : Response := mkResponse 502 None.

(** A success status with a body that is not JSON. *)
Definition login_page : Response := mkResponse 200 None.

(** A success status with a body whose bytes are not text. *)
Definition binary_page : Response := Build_Response 200 None false.

(** A success status with a JSON object that has no [results]. *)
Definition no_results : Response :=
  mkResponse 200 (Some (JObj [("message", JStr "ok")])).

(** A space entry without a key, and one whose description value is
    null. *)
Definition keyless : json := JObj [("name", JStr "Lost")].

Definition null_value : json :=
  JObj [("key", JStr "DOC"); ("name", JStr "Docs");
        ("description", JObj [("plain", JObj [("value", JNull)])])].

Definition broken_listing : Response :=
  mkResponse 200 (Some (JObj [("results", JArr [Sample.eng; keyless; Sample.ops])])).

(** An environment whose base URL is not ASCII, and one whose token is
    not. *)
Definition env_url_accent : environ :=
  Sample.env (Some (String (ascii_of_N 233) ".example")) (Some "user") (Some "pass").

Definition env_token_accent : environ :=
  Sample.env (Some "https://wiki.example") (Some "user") (Some (String (ascii_of_N 233) "x")).

End Fixtures.

(* ================================================================== *)
(** * Properties *)

(** ** Strings *)

Section StringFacts.

Lemma startswith_true_iff (s p : string) :
  PyStr.startswith s p = true <-> exists rest, s = p ++ rest.
Proof.
  revert s; induction p as [|a p IH]; intros s; simpl.
  - split; [intros _; exists s; reflexivity | intros _; now destruct s].
  - destruct s as [|b s]; simpl.
    + split; [discriminate | intros [rest H]; discriminate].
    + rewrite andb_true_iff, Ascii.eqb_eq, IH. split.
      * intros [-> [rest ->]]. exists rest. reflexivity.
      * intros [rest H]. injection H as -> ->. split; [reflexivity | now exists rest].
Qed.

Lemma startswith_false_iff (s p : string) :
  PyStr.startswith s p = false <-> forall rest, s <> p ++ rest.
Proof.
  split.
  - intros H rest E.
    assert (T : PyStr.startswith s p = true) by (apply startswith_true_iff; now exists rest).
    congruence.
  - intros H. destruct (PyStr.startswith s p) eqn:E; [|reflexivity].
    apply startswith_true_iff in E. destruct E as [rest E]. now destruct (H rest).
Qed.

Variable sep : ascii.

Lemma split_not_nil (s : string) : PyStr.split sep s <> [].
Proof.
  destruct s as [|c s]; simpl; [discriminate|].
  destruct (Ascii.eqb c sep); [discriminate|].
  destruct (PyStr.split sep s); discriminate.
Qed.

Lemma split_without_sep (s : string) :
  PyStr.contains sep s = false -> PyStr.split sep s = [s].
Proof.
  induction s as [|c s IH]; simpl; [reflexivity|].
  rewrite orb_false_iff, Ascii.eqb_sym. intros [Hc Hs].
  rewrite Hc, (IH Hs). reflexivity.
Qed.

(** A text with a separator in it splits into at least two pieces. *)
Lemma split_with_sep (pre seg : string) :
  exists piece next rest,
    PyStr.split sep (pre ++ String sep seg) = piece :: next :: rest.
Proof.
  induction pre as [|c pre IH]; simpl.
  - rewrite Ascii.eqb_refl.
    destruct (PyStr.split sep seg) as [|x l] eqn:E; [now apply split_not_nil in E|].
    now exists EmptyString, x, l.
  - destruct IH as (piece & next & rest & ->).
    destruct (Ascii.eqb c sep).
    + now exists EmptyString, piece, (next :: rest).
    + now exists (String c piece), next, rest.
Qed.

Lemma last_item_split_app (pre seg : string) :
  PyStr.last_item (PyStr.split sep (pre ++ String sep seg))
  = PyStr.last_item (PyStr.split sep seg).
Proof.
  induction pre as [|c pre IH]; simpl.
  - rewrite Ascii.eqb_refl.
    destruct (PyStr.split sep seg) eqn:E; [now apply split_not_nil in E | reflexivity].
  - rewrite <- IH.
    destruct (split_with_sep pre seg) as (piece & next & rest & ->).
    destruct (Ascii.eqb c sep); reflexivity.
Qed.

End StringFacts.

(** [uri_str.split("/")[-1]] is the trailing path segment. *)
Lemma last_segment_trailing (uri seg : string) :
  trailing_segment uri seg -> last_segment uri = Ok seg.
Proof.
  intros (pre & -> & Hseg). unfold last_segment.
  change (pre ++ "/" ++ seg) with (pre ++ String "/"%char seg).
  rewrite last_item_split_app, (split_without_sep _ _ Hseg). reflexivity.
Qed.

(** The trailing segment of a text is unique. *)
Lemma trailing_segment_unique (uri seg seg' : string) :
  trailing_segment uri seg -> trailing_segment uri seg' -> seg = seg'.
Proof.
  intros H H'. apply last_segment_trailing in H, H'. congruence.
Qed.

(** A text with a slash in it has a trailing segment. *)
Lemma trailing_segment_exists (uri : string) :
  PyStr.contains "/"%char uri = true -> exists seg, trailing_segment uri seg.
Proof.
  induction uri as [|c uri IH]; cbn [PyStr.contains]; [discriminate|].
  destruct (PyStr.contains "/"%char uri) eqn:E.
  - intros _. destruct (IH eq_refl) as (seg & pre & -> & Hseg).
    exists seg, (String c pre). now split.
  - rewrite orb_false_r. intros Hc. apply Ascii.eqb_eq in Hc. subst c.
    exists uri, EmptyString. now split.
Qed.

(** [split] always yields a piece, so [last_segment] never raises. *)
Lemma last_segment_total (uri : string) : exists seg, last_segment uri = Ok seg.
Proof.
  unfold last_segment.
  destruct (PyStr.last_item (PyStr.split "/" uri)) as [s|] eqn:E; [now exists s|].
  exfalso. pose proof (split_not_nil "/"%char uri) as N.
  induction (PyStr.split "/" uri) as [|x l IH]; [now apply N|].
  destruct l; [discriminate|]. apply IH; [exact E | discriminate].
Qed.

(** ** The library models on known values *)

(** The test vectors of RFC 4648, section 10. *)
Example b64encode_rfc4648 :
  map (fun s => Base64.b64encode (list_byte_of_string s))
      [EmptyString; "f"; "fo"; "foo"; "foob"; "fooba"; "foobar"]
  = [EmptyString; "Zg=="; "Zm8="; "Zm9v"; "Zm9vYg=="; "Zm9vYmE="; "Zm9vYmFy"].
Proof. reflexivity. Qed.

Example basic_auth_user_pass : basic_auth "user" "pass" = "Basic dXNlcjpwYXNz".
Proof. reflexivity. Qed.

(** The encoded text has four characters for every three bytes, rounded
    up. *)
Lemma b64encode_length (l : list Byte.byte) :
  String.length (Base64.b64encode l) = (4 * ((List.length l + 2) / 3))%nat.
Proof.
  assert (H : forall n (l : list Byte.byte), (List.length l < n)%nat ->
            String.length (Base64.b64encode l) = (4 * ((List.length l + 2) / 3))%nat).
  { induction n as [|n IH]; intros k Hk; [lia|].
    destruct k as [|a [|b [|c k]]]; try reflexivity.
    cbn [Base64.b64encode String.length List.length].
    rewrite IH by (simpl in Hk; lia).
    replace (S (S (S (List.length k))) + 2)%nat with (List.length k + 2 + 1 * 3)%nat by lia.
    rewrite Nat.div_add by lia. lia. }
  apply (H (S (List.length l))). lia.
Qed.

Example dumps_nested :
  Json.dumps (JArr [JInt 1; JArr [JBool true; JNull]; JObj []; JInt (-20)]) 2
  = "[
  1,
  [
    true,
    null
  ],
  {},
  -20
]".
Proof. reflexivity. Qed.

Example dumps_object :
  Json.dumps (JObj [("id", JInt 7); ("tags", JArr [])]) 2
  = "{" ++ String PyStr.LF "  " ++ Json.encode_str "id" ++ ": 7,"
        ++ String PyStr.LF "  " ++ Json.encode_str "tags" ++ ": []"
        ++ String PyStr.LF "}".
Proof. reflexivity. Qed.

(** Characters outside printable ASCII are written as escapes. *)
Example encode_str_escapes :
  Json.encode_str (String PyStr.LF (String (ascii_of_N 233) "a"))
  = String PyStr.dquote ("\n\u00e9a" ++ String PyStr.dquote EmptyString).
Proof. reflexivity. Qed.

(** What an f-string placeholder prints for values that are not
    strings. *)
Example str_of_values :
  map Py.str [JStr "ENG"; JInt 999; JInt 0; JInt (-3); JBool true; JNull;
              JArr [JInt 1; JStr "a"]; JObj [("k", JNull)]]
  = ["ENG"; "999"; "0"; "-3"; "True"; "None"; "[1, 'a']"; "{'k': None}"].
Proof. reflexivity. Qed.

Example split_uri :
  PyStr.split "/" "confluence://spaces/ENG" = ["confluence:"; EmptyString; "spaces"; "ENG"].
Proof. reflexivity. Qed.

(** ** Running programs *)

Section RunFacts.

Context {W : Type}.
Variable up : upstream W.

Lemma run_lift {A : Type} (w : W) (r : result A) : run up w (lift r) = (w, [], r).
Proof. destruct r; reflexivity. Qed.

Lemma run_bind {A B : Type} (w : W) (m : prog A) (f : A -> prog B) :
  run up w (bind m f) =
  let '(w1, calls, r) := run up w m in
  match r with
  | Ok a => let '(w2, calls', r') := run up w1 (f a) in (w2, (calls ++ calls')%list, r')
  | Err e => (w1, calls, Err e)
  end.
Proof.
  revert w; induction m as [a|e|rq k IH]; intros w; simpl.
  - now destruct (run up w (f a)) as [[w2 calls'] r'].
  - reflexivity.
  - destruct (up w rq) as [w1 a]. rewrite IH.
    destruct (run up w1 (k a)) as [[w2 calls] [x|e]]; [|reflexivity].
    now destruct (run up w2 (f x)) as [[w3 calls'] r'].
Qed.

Lemma run_client_get (w : W) (rq : Request) :
  run up w (client_get rq) = (fst (up w rq), [rq], received (snd (up w rq))).
Proof.
  unfold client_get; simpl. destruct (up w rq) as [w1 a]; simpl.
  now rewrite run_lift.
Qed.

Variable g : globals.

(** [search_confluence] is one search call; the status is checked
    before the payload is read. *)
Lemma run_search_confluence (w : W) (query : json) :
  run up w (search_confluence g query)
  = (fst (up w (search_call g query)), [search_call g query],
     try response <- received (snd (up w (search_call g query))) ;
     try _ <- Httpx.raise_for_status response ;
     try body <- Httpx.json response ;
     Py.getitem body "results").
Proof.
  unfold search_confluence. fold (search_call g query).
  rewrite run_bind, run_client_get.
  destruct (received (snd (up w (search_call g query)))) as [r|e]; simpl; [|reflexivity].
  rewrite run_bind, run_lift.
  destruct (Httpx.raise_for_status r) as [[]|e]; simpl; [|reflexivity].
  now rewrite run_lift.
Qed.

(** [get_page_content] is one page-fetch call, with the same check. *)
Lemma run_get_page_content (w : W) (page_id : json) :
  let rq := page_fetch_call g (Py.str page_id) in
  run up w (get_page_content g page_id)
  = (fst (up w rq), [rq],
     try response <- received (snd (up w rq)) ;
     try _ <- Httpx.raise_for_status response ;
     Httpx.json response).
Proof.
  intros rq. unfold get_page_content. fold (page_fetch_call g (Py.str page_id)). fold rq.
  rewrite run_bind, run_client_get.
  destruct (received (snd (up w rq))) as [r|e]; simpl; [|reflexivity].
  rewrite run_bind, run_lift.
  destruct (Httpx.raise_for_status r) as [[]|e]; simpl; [|reflexivity].
  now rewrite run_lift.
Qed.

(** [list_resources] is one space-listing call; the status is not
    looked at. *)
Lemma run_list_resources (w : W) :
  let rq := space_listing_call g in
  run up w (list_resources g)
  = (fst (up w rq), [rq],
     try response <- received (snd (up w rq)) ;
     try body <- Httpx.json response ;
     try spaces_data <- Py.getitem body "results" ;
     try spaces <- Py.iter spaces_data ;
     comprehension space_resource spaces).
Proof.
  intros rq. unfold list_resources. fold (space_listing_call g). fold rq.
  rewrite run_bind, run_client_get.
  destruct (received (snd (up w rq))) as [r|e]; simpl; [|reflexivity].
  rewrite run_bind, run_lift.
  destruct (Httpx.json r) as [body|e]; simpl; [|reflexivity].
  destruct (Py.getitem body "results") as [d|e]; simpl; [|reflexivity].
  now rewrite run_lift.
Qed.

(** The space branch of [read_resource] is one content-listing call;
    the status is not looked at. *)
Lemma run_read_space (w : W) (uri key : string) :
  PyStr.startswith uri spaces_prefix = true ->
  last_segment uri = Ok key ->
  let rq := space_content_call g key in
  run up w (read_resource g uri)
  = (fst (up w rq), [rq],
     try response <- received (snd (up w rq)) ;
     try body <- Httpx.json response ;
     Ok (Json.dumps body 2)).
Proof.
  intros Hpre Hkey rq. unfold read_resource.
  change "confluence://spaces/" with spaces_prefix. rewrite Hpre, Hkey.
  cbn [lift bind]. fold (space_content_call g key). fold rq.
  rewrite run_bind, run_client_get.
  destruct (received (snd (up w rq))) as [r|e]; simpl; [|reflexivity].
  rewrite run_bind, run_lift.
  destruct (Httpx.json r) as [body|e]; reflexivity.
Qed.

(** The page branch of [read_resource] goes through
    [get_page_content]. *)
Lemma run_read_page (w : W) (uri id : string) :
  PyStr.startswith uri spaces_prefix = false ->
  PyStr.startswith uri pages_prefix = true ->
  last_segment uri = Ok id ->
  let rq := page_fetch_call g id in
  run up w (read_resource g uri)
  = (fst (up w rq), [rq],
     try response <- received (snd (up w rq)) ;
     try _ <- Httpx.raise_for_status response ;
     try body <- Httpx.json response ;
     Ok (Json.dumps body 2)).
Proof.
  intros Hs Hp Hid rq. unfold read_resource.
  change "confluence://spaces/" with spaces_prefix.
  change "confluence://pages/" with pages_prefix. rewrite Hs, Hp, Hid.
  cbn [lift bind]. rewrite run_bind, run_get_page_content.
  cbn [Py.str]. fold rq.
  destruct (received (snd (up w rq))) as [r|e]; simpl; [|reflexivity].
  destruct (Httpx.raise_for_status r) as [[]|e]; simpl; [|reflexivity].
  destruct (Httpx.json r) as [body|e]; reflexivity.
Qed.

(** The two tools: the required argument is tested for truth before
    anything is sent. *)
Lemma run_call_search (w : W) (arguments : json) :
  run up w (call_tool g "search_content" arguments)
  = match Py.get arguments "query" JNull with
    | Err e => (w, [], Err e)
    | Ok query =>
        if Py.truthy query then
          (fst (up w (search_call g query)), [search_call g query],
           try response <- received (snd (up w (search_call g query))) ;
           try _ <- Httpx.raise_for_status response ;
           try body <- Httpx.json response ;
           try results <- Py.getitem body "results" ;
           Ok (Json.dumps results 2))
        else (w, [], Err (ValueError "Query parameter is required"))
    end.
Proof.
  unfold call_tool. cbn [String.eqb Ascii.eqb Bool.eqb].
  destruct (Py.get arguments "query" JNull) as [query|e]; cbn [lift bind]; [|reflexivity].
  destruct (Py.truthy query); cbn [negb]; [|reflexivity].
  rewrite run_bind, run_search_confluence.
  destruct (received (snd (up w (search_call g query)))) as [r|e]; simpl; [|reflexivity].
  destruct (Httpx.raise_for_status r) as [[]|e]; simpl; [|reflexivity].
  destruct (Httpx.json r) as [body|e]; simpl; [|reflexivity].
  destruct (Py.getitem body "results") as [results|e]; reflexivity.
Qed.

Lemma run_call_get_page (w : W) (arguments : json) :
  run up w (call_tool g "get_page" arguments)
  = match Py.get arguments "page_id" JNull with
    | Err e => (w, [], Err e)
    | Ok page_id =>
        if Py.truthy page_id then
          let rq := page_fetch_call g (Py.str page_id) in
          (fst (up w rq), [rq],
           try response <- received (snd (up w rq)) ;
           try _ <- Httpx.raise_for_status response ;
           try body <- Httpx.json response ;
           Ok (Json.dumps body 2))
        else (w, [], Err (ValueError "Page ID parameter is required"))
    end.
Proof.
  unfold call_tool. cbn [String.eqb Ascii.eqb Bool.eqb].
  destruct (Py.get arguments "page_id" JNull) as [page_id|e]; cbn [lift bind]; [|reflexivity].
  destruct (Py.truthy page_id); cbn [negb]; [|reflexivity].
  rewrite run_bind, run_get_page_content. cbv zeta.
  destruct (received (snd (up w _))) as [r|e]; simpl; [|reflexivity].
  destruct (Httpx.raise_for_status r) as [[]|e]; simpl; [|reflexivity].
  destruct (Httpx.json r) as [body|e]; reflexivity.
Qed.

End RunFacts.

(** ** Dictionaries *)

Lemma lookup_none_iff (k : string) (fields : list (string * json)) :
  Py.lookup k fields = None <-> ~ In k (map fst fields).
Proof.
  induction fields as [|[k' v] fields IH]; simpl.
  - tauto.
  - destruct (String.eqb k k') eqn:E.
    + apply String.eqb_eq in E. subst. split; [discriminate | intros H; exfalso; auto].
    + apply String.eqb_neq in E. rewrite IH. split.
      * intros H [H'|H']; [congruence | auto].
      * intros H H'. apply H. now right.
Qed.

(** ** Upstream failures (C1) *)

Section UpstreamStatus.

Context {W : Type}.
Variables (up : upstream W) (g : globals).

(** The search surfaces a non-2xx status as an error that carries the
    status and the payload. *)
Lemma search_confluence_surfaces_status (w w' : W) (query : json) (r : Response) :
  up w (search_call g query) = (w', Answered r) ->
  Httpx.is_success r = false ->
  run up w (search_confluence g query)
  = (w', [search_call g query], Err (HTTPStatusError (status_code r) (payload r))).
Proof.
  intros Hup Hr. rewrite run_search_confluence, Hup. simpl.
  unfold Httpx.raise_for_status. now rewrite Hr.
Qed.

(** So does the page fetch. *)
Lemma get_page_content_surfaces_status (w w' : W) (page_id : json) (r : Response) :
  up w (page_fetch_call g (Py.str page_id)) = (w', Answered r) ->
  Httpx.is_success r = false ->
  run up w (get_page_content g page_id)
  = (w', [page_fetch_call g (Py.str page_id)],
     Err (HTTPStatusError (status_code r) (payload r))).
Proof.
  intros Hup Hr. rewrite run_get_page_content. cbv zeta. rewrite Hup. simpl.
  unfold Httpx.raise_for_status. now rewrite Hr.
Qed.

(** The space listing returns whatever the payload yields, at any
    status. *)
Lemma list_resources_any_status (w w' : W) (status : Z) (body : option json) :
  up w (space_listing_call g) = (w', Answered (mkResponse status body)) ->
  run up w (list_resources g)
  = (w', [space_listing_call g],
     try v <- Httpx.json (mkResponse 200 body) ;
     try spaces_data <- Py.getitem v "results" ;
     try spaces <- Py.iter spaces_data ;
     comprehension space_resource spaces).
Proof.
  intros Hup. rewrite run_list_resources. cbv zeta. now rewrite Hup.
Qed.

(** The space content listing returns the payload pretty-printed, at
    any status. *)
Lemma read_space_any_status (w w' : W) (uri key : string) (status : Z) (body : json) :
  (exists rest, uri = spaces_prefix ++ rest) ->
  trailing_segment uri key ->
  up w (space_content_call g key) = (w', Answered (mkResponse status (Some body))) ->
  run up w (read_resource g uri)
  = (w', [space_content_call g key], Ok (Json.dumps body 2)).
Proof.
  intros Hpre Hkey Hup.
  rewrite (run_read_space up g w uri (key := key)).
  - cbv zeta. now rewrite Hup.
  - now apply startswith_true_iff.
  - now apply last_segment_trailing.
Qed.

End UpstreamStatus.

(** C1 (fails on the code): every upstream operation turns a non-2xx
    status into an upstream error carrying that status.  The search and
    the page fetch do, see [search_confluence_surfaces_status] and
    [get_page_content_surfaces_status]; the space content listing and the
    space listing never look at the status.  Here the content listing
    answers a 404 with the pretty-printed error payload as its result; the
    space listing answers a 503 with the resources it finds in the payload,
    and fails on a 401 with the KeyError of the missing [results], not with
    the status; the page fetch raises on the same 404. *)
Theorem C1_space_calls_ignore_error_status :
  run (Sample.always (Answered Sample.not_found)) tt
      (read_resource Sample.g "confluence://spaces/NOPE")
  = (tt, [space_content_call Sample.g "NOPE"],
     Ok (Json.dumps (JObj [("statusCode", JInt 404);
                           ("message", JStr "No space with key : NOPE")]) 2))
  /\ run (Sample.always (Answered Sample.unavailable)) tt (list_resources Sample.g)
     = (tt, [space_listing_call Sample.g],
        Ok [ {| uri := "confluence://spaces/OPS"; name := "Space: Operations";
                description := Some EmptyString; mimeType := "application/json" |} ])
  /\ run (Sample.always (Answered Sample.unauthorized)) tt (list_resources Sample.g)
     = (tt, [space_listing_call Sample.g], Err (KeyError "results"))
  /\ run (Sample.always (Answered Sample.not_found)) tt
         (read_resource Sample.g "confluence://pages/NOPE")
     = (tt, [page_fetch_call Sample.g "NOPE"],
        Err (HTTPStatusError 404 (payload Sample.not_found))).
Proof. repeat split. Qed.

(** ** The URL of a listed resource *)

Lemma append_empty (s : string) : s ++ EmptyString = s.
Proof. induction s as [|c s IH]; simpl; [reflexivity | now rewrite IH]. Qed.

(** What the parser does with one unreserved character: nothing. *)
Lemma unreserved_untouched (c : ascii) :
  unreserved c = true ->
  N.leb (PyStr.code c) 32 = false /\
  Url.tab_or_newline c = false /\
  (Ascii.eqb c "?" || Ascii.eqb c "#") = false /\
  (Url.control c || Url.path_set c) = false /\
  Ascii.eqb "/" c = false.
Proof.
  destruct c as [[] [] [] [] [] [] [] []]; intros H; try discriminate H; repeat split.
Qed.

Section UnreservedText.

Variable s : string.
Hypothesis Hs : all_chars unreserved s = true.

Lemma rtrim_unreserved : Url.rtrim s = s.
Proof.
  induction s as [|c t IH]; [reflexivity|].
  simpl in Hs. apply andb_true_iff in Hs. destruct Hs as [Hc Ht].
  simpl. rewrite (IH Ht).
  destruct (unreserved_untouched c Hc) as (-> & _). now destruct t.
Qed.

Lemma drop_tabs_unreserved : Url.drop_tabs s = s.
Proof.
  induction s as [|c t IH]; [reflexivity|].
  simpl in Hs. apply andb_true_iff in Hs. destruct Hs as [Hc Ht].
  simpl. rewrite (IH Ht).
  now destruct (unreserved_untouched c Hc) as (_ & -> & _).
Qed.

Lemma cut_unreserved :
  Url.cut (fun c => Ascii.eqb c "?" || Ascii.eqb c "#") s = (s, None).
Proof.
  induction s as [|c t IH]; [reflexivity|].
  simpl in Hs. apply andb_true_iff in Hs. destruct Hs as [Hc Ht].
  simpl. rewrite (IH Ht).
  now destruct (unreserved_untouched c Hc) as (_ & _ & -> & _).
Qed.

Lemma encode_unreserved : Url.encode Url.path_set s = s.
Proof.
  unfold Url.encode.
  induction s as [|c t IH]; [reflexivity|].
  simpl in Hs. apply andb_true_iff in Hs. destruct Hs as [Hc Ht].
  simpl. rewrite (IH Ht).
  now destruct (unreserved_untouched c Hc) as (_ & _ & _ & -> & _).
Qed.

Lemma no_slash_unreserved : PyStr.contains "/"%char s = false.
Proof.
  induction s as [|c t IH]; [reflexivity|].
  simpl in Hs. apply andb_true_iff in Hs. destruct Hs as [Hc Ht].
  cbn [PyStr.contains]. rewrite (IH Ht).
  now destruct (unreserved_untouched c Hc) as (_ & _ & _ & _ & ->).
Qed.

(** Unreserved text is none of the spellings that have a percent sign. *)
Lemma not_spelt (lit : string) :
  all_chars unreserved lit = false -> String.eqb s lit = false.
Proof.
  intros Hlit. destruct (String.eqb_spec s lit) as [E|]; [|reflexivity].
  rewrite E in Hs. congruence.
Qed.

End UnreservedText.

(** A plain key is listed under the very text [confluence://spaces/{key}]. *)
Lemma spaces_plain_key (key : string) :
  plain_key key = true -> Url.spaces key = "confluence://spaces/" ++ key.
Proof.
  unfold plain_key. rewrite !andb_true_iff, !negb_true_iff.
  intros [[Hall Hdot] Hdots].
  unfold Url.spaces.
  rewrite (rtrim_unreserved _ Hall), (drop_tabs_unreserved _ Hall), (cut_unreserved _ Hall).
  rewrite (encode_unreserved _ Hall), (split_without_sep _ _ (no_slash_unreserved _ Hall)).
  assert (D : Url.double_dot key = false).
  { unfold Url.double_dot, Url.one_of. cbn [existsb].
    rewrite Hdots, !(not_spelt _ Hall) by reflexivity. reflexivity. }
  assert (S : Url.single_dot key = false).
  { unfold Url.single_dot, Url.one_of. cbn [existsb].
    rewrite Hdot, !(not_spelt _ Hall) by reflexivity. reflexivity. }
  cbn [Url.segments]. rewrite D, S.
  cbn [app map Url.serialize_path String.concat Url.fragment].
  now rewrite append_empty.
Qed.

Lemma segments_not_nil (segs path : list string) :
  segs <> [] -> Url.segments path segs <> [].
Proof.
  revert path. induction segs as [|seg segs IH]; intros path Hsegs; [now destruct Hsegs|].
  destruct segs as [|seg' segs].
  - cbn [Url.segments].
    destruct (Url.double_dot seg); [|destruct (Url.single_dot seg)];
      intros E; now apply app_eq_nil in E.
  - apply IH. discriminate.
Qed.

(** Whatever the key, the listed uri is a space uri. *)
Lemma spaces_is_space_uri (key : string) :
  exists rest, Url.spaces key = spaces_prefix ++ rest.
Proof.
  unfold Url.spaces.
  destruct (Url.cut _ (Url.drop_tabs (Url.rtrim key))) as [path after].
  pose proof (@segments_not_nil (PyStr.split "/" (Url.encode Url.path_set path)) []
                (split_not_nil _ _)) as Hne.
  destruct (Url.segments [] _) as [|seg path']; [now destruct Hne|].
  unfold Url.serialize_path. cbn [map String.concat].
  match goal with
  | |- exists rest, _ ++ ?p ++ ?t = _ =>
      assert (Hp : exists q, p = "/" ++ q)
  end.
  { destruct (map _ path').
    - now exists seg.
    - eexists. cbn [append]. reflexivity. }
  destruct Hp as [q ->]. eexists. reflexivity.
Qed.

Example spaces_blank : Url.spaces "A B" = "confluence://spaces/A%20B".
Proof. reflexivity. Qed.

Example spaces_dot_segments :
  map Url.spaces [".."; "."; "a/../b"; "a/./b"; "%2e%2E"]
  = ["confluence://spaces/"; "confluence://spaces/"; "confluence://spaces/b";
     "confluence://spaces/a/b"; "confluence://spaces/"].
Proof. reflexivity. Qed.

Example spaces_query_and_fragment :
  map Url.spaces ["a b?c d#e f"; "a?"; "a{b}?{c}#`"]
  = ["confluence://spaces/a%20b?c%20d#e%20f"; "confluence://spaces/a?";
     "confluence://spaces/a%7Bb%7D?{c}#%60"].
Proof. reflexivity. Qed.

Example spaces_trimmed :
  map Url.spaces ["ENG  "; String PyStr.LF "ENG"; String (ascii_of_N 233) EmptyString]
  = ["confluence://spaces/ENG"; "confluence://spaces/ENG"; "confluence://spaces/%C3%A9"].
Proof. reflexivity. Qed.

(** ** Resource listing (C2) *)

Lemma plain_description_get (space : list (string * json)) (descr : string) :
  plain_description space descr ->
  (try d <- Py.get (JObj space) "description" (JObj []) ;
   try p <- Py.get d "plain" (JObj []) ;
   Py.get p "value" (JStr EmptyString)) = Ok (JStr descr).
Proof.
  intros [d p v Hd Hp Hv | Hd | d Hd Hp | d p Hd Hp Hv]; simpl; rewrite Hd; simpl;
    try rewrite Hp; simpl; try rewrite Hv; reflexivity.
Qed.

Lemma listed_uri_spaces (key u : string) : listed_uri key u -> u = Url.spaces key.
Proof. intros [Hplain|]; [now rewrite spaces_plain_key | reflexivity]. Qed.

Lemma space_descriptor_resource (space : json) (r : Resource) :
  space_descriptor space r -> space_resource space = Ok r.
Proof.
  intros [fields key nm descr u Hkey Hname Hdescr Hu]. unfold space_resource.
  apply listed_uri_spaces in Hu. subst u.
  pose proof (plain_description_get Hdescr) as Hget.
  simpl in *. rewrite Hkey, Hname. simpl.
  destruct (Py.lookup "description" fields) as [d|]; simpl in *.
  - destruct (Py.get d "plain" (JObj [])) as [p|e]; simpl in *; [|discriminate].
    now rewrite Hget.
  - injection Hget as <-. reflexivity.
Qed.

Lemma comprehension_descriptors (spaces : list json) (expected : list Resource) :
  Forall2 space_descriptor spaces expected ->
  comprehension space_resource spaces = Ok expected.
Proof.
  induction 1 as [|space r spaces expected Hr _ IH]; simpl; [reflexivity|].
  now rewrite (space_descriptor_resource Hr), IH.
Qed.

(** The descriptor of a space entry is determined by the entry. *)
Lemma space_descriptor_functional (space : json) (r r' : Resource) :
  space_descriptor space r -> space_descriptor space r' -> r = r'.
Proof.
  intros H H'. apply space_descriptor_resource in H, H'. congruence.
Qed.

(** Outside the valid shapes the fallback chain raises: a description
    that is present but not an object has no [get]. *)
Lemma description_not_object_raises (fields : list (string * json)) (key nm d : json) :
  Py.lookup "key" fields = Some key ->
  Py.lookup "name" fields = Some nm ->
  Py.lookup "description" fields = Some d ->
  (forall o, d <> JObj o) ->
  space_resource (JObj fields) = Err AttributeError.
Proof.
  intros Hk Hn Hd Hobj. unfold space_resource. simpl. rewrite Hk, Hn, Hd. simpl.
  destruct d as [| | | | |o]; try reflexivity. now destruct (Hobj o).
Qed.

(** C2 as stated fails: the uri is the text of a parsed URL, not the
    text that was parsed.  For the valid listing of a space whose key is
    [A B] the resource is listed under [confluence://spaces/A%20B]. *)
Lemma C2_normalised_uri_counterexample :
  valid_listing Sample.spaced_listing [Sample.spaced] /\
  run (Sample.always (Answered Sample.spaced_listing)) tt (list_resources Sample.g)
  = (tt, [space_listing_call Sample.g],
     Ok [ {| uri := "confluence://spaces/A%20B"; name := "Space: Alpha Beta";
             description := Some EmptyString; mimeType := "application/json" |} ]) /\
  "confluence://spaces/A%20B" <> "confluence://spaces/" ++ "A B".
Proof.
  split; [|split].
  - split; [reflexivity|]. eexists. split; reflexivity.
  - reflexivity.
  - discriminate.
Qed.

(** C2 (amended): for every valid space listing, [list_resources]
    issues the one listing call and returns one Resource Descriptor per
    space, in the upstream order ([Forall2]), each with name
    [Space: {name}], mimeType [application/json], the nested plain-text
    description, or the empty string when a level of the nesting is
    missing, and as uri the URL that [confluence://spaces/{key}] is parsed
    into, which is that very text whenever the key is made of letters,
    digits, [-], [.], [_] and [~] and is not [.] or [..]
    ([listed_uri], [space_descriptor]). *)
Theorem C2_list_resources_descriptors :
  forall (g : globals) (W : Type) (up : upstream W) (w w' : W)
         (r : Response) (spaces : list json) (expected : list Resource),
    up w (space_listing_call g) = (w', Answered r) ->
    valid_listing r spaces ->
    Forall2 space_descriptor spaces expected ->
    run up w (list_resources g) = (w', [space_listing_call g], Ok expected).
Proof.
  intros g W up w w' r spaces expected Hup (_ & body & Hbody & Hresults) Hspaces.
  rewrite run_list_resources. cbv zeta. rewrite Hup. simpl.
  unfold Httpx.json. rewrite Hbody. simpl. rewrite Hresults. simpl.
  now rewrite (comprehension_descriptors Hspaces).
Qed.

Lemma C2_list_resources_descriptors_witness :
  run (Sample.always (Answered Sample.listing)) tt (list_resources Sample.g)
  = (tt, [space_listing_call Sample.g],
     Ok [ {| uri := "confluence://spaces/ENG"; name := "Space: Engineering";
             description := Some "Team space"; mimeType := "application/json" |};
          {| uri := "confluence://spaces/OPS"; name := "Space: Operations";
             description := Some EmptyString; mimeType := "application/json" |} ]).
Proof.
  apply (@C2_list_resources_descriptors Sample.g unit
           (Sample.always (Answered Sample.listing)) tt tt Sample.listing
           [Sample.eng; Sample.ops]).
  - reflexivity.
  - split; [reflexivity|].
    exists [("results", JArr [Sample.eng; Sample.ops]); ("size", JInt 2)].
    split; reflexivity.
  - constructor; [|constructor; [|constructor]].
    + apply (@space_descriptor_of _ "ENG" "Engineering" "Team space");
        [reflexivity | reflexivity | | apply uri_as_written; reflexivity].
      eapply description_nested; reflexivity.
    + apply (@space_descriptor_of _ "OPS" "Operations" EmptyString);
        [reflexivity | reflexivity | | apply uri_as_written; reflexivity].
      apply description_missing. reflexivity.
Defined.

(** ** Reading a resource (C3, C4) *)

Lemma pages_not_spaces (rest : string) :
  PyStr.startswith (pages_prefix ++ rest) spaces_prefix = false.
Proof. reflexivity. Qed.

(** C3: for a URI that starts with [confluence://spaces/],
    [read_resource] issues exactly one GET, to
    [{baseUrl}/wiki/rest/api/space/{key}/content] with [key] the trailing
    path segment of the URI, and returns the response body printed by
    [json.dumps(..., indent=2)]; for a URI that starts with
    [confluence://pages/] it issues exactly one GET, to
    [{baseUrl}/wiki/rest/api/content/{id}?expand=body.storage] with [id] the
    trailing segment, and returns the body of the successful response
    printed the same way. *)
Theorem C3_read_resource_one_call :
  forall (g : globals) (W : Type) (up : upstream W) (w : W) (uri : string),
    ((exists rest, uri = spaces_prefix ++ rest) ->
       exists key,
         trailing_segment uri key /\
         calls_of up w (read_resource g uri) = [space_content_call g key] /\
         forall w' r body,
           up w (space_content_call g key) = (w', Answered r) ->
           payload r = Some body ->
           run up w (read_resource g uri)
           = (w', [space_content_call g key], Ok (Json.dumps body 2)))
    /\
    ((exists rest, uri = pages_prefix ++ rest) ->
       exists id,
         trailing_segment uri id /\
         calls_of up w (read_resource g uri) = [page_fetch_call g id] /\
         forall w' r body,
           up w (page_fetch_call g id) = (w', Answered r) ->
           Httpx.is_success r = true ->
           payload r = Some body ->
           run up w (read_resource g uri)
           = (w', [page_fetch_call g id], Ok (Json.dumps body 2))).
Proof.
  intros g W up w uri. split.
  - intros Hpre.
    assert (Hslash : PyStr.contains "/"%char uri = true)
      by (destruct Hpre as [rest ->]; reflexivity).
    destruct (trailing_segment_exists uri Hslash) as [key Hkey].
    exists key. split; [exact Hkey|].
    apply last_segment_trailing in Hkey. apply startswith_true_iff in Hpre.
    unfold calls_of. rewrite (run_read_space up g w uri Hpre Hkey). cbv zeta.
    split; [reflexivity|].
    intros w' r body Hup Hbody. rewrite Hup. simpl.
    unfold Httpx.json. now rewrite Hbody.
  - intros [rest ->].
    destruct (trailing_segment_exists (pages_prefix ++ rest) eq_refl) as [id Hid].
    exists id. split; [exact Hid|].
    apply last_segment_trailing in Hid.
    assert (Hpre : PyStr.startswith (pages_prefix ++ rest) pages_prefix = true)
      by (apply startswith_true_iff; now exists rest).
    unfold calls_of.
    rewrite (run_read_page up g w (pages_prefix ++ rest) (pages_not_spaces rest) Hpre Hid).
    cbv zeta. split; [reflexivity|].
    intros w' r body Hup Hok Hbody. rewrite Hup. simpl.
    unfold Httpx.raise_for_status, Httpx.json. now rewrite Hok, Hbody.
Qed.

Lemma C3_read_resource_one_call_witness :
  (exists key,
     trailing_segment "confluence://spaces/ENG" key /\
     calls_of (Sample.always (Answered Sample.found)) tt
              (read_resource Sample.g "confluence://spaces/ENG")
     = [space_content_call Sample.g key] /\
     forall w' r body,
       Sample.always (Answered Sample.found) tt (space_content_call Sample.g key)
       = (w', Answered r) ->
       payload r = Some body ->
       run (Sample.always (Answered Sample.found)) tt
           (read_resource Sample.g "confluence://spaces/ENG")
       = (w', [space_content_call Sample.g key], Ok (Json.dumps body 2)))
  /\
  (exists id,
     trailing_segment "confluence://pages/12345" id /\
     calls_of (Sample.always (Answered Sample.found)) tt
              (read_resource Sample.g "confluence://pages/12345")
     = [page_fetch_call Sample.g id] /\
     forall w' r body,
       Sample.always (Answered Sample.found) tt (page_fetch_call Sample.g id)
       = (w', Answered r) ->
       Httpx.is_success r = true ->
       payload r = Some body ->
       run (Sample.always (Answered Sample.found)) tt
           (read_resource Sample.g "confluence://pages/12345")
       = (w', [page_fetch_call Sample.g id], Ok (Json.dumps body 2))).
Proof.
  split.
  - apply (proj1 (@C3_read_resource_one_call Sample.g unit
             (Sample.always (Answered Sample.found)) tt "confluence://spaces/ENG")).
    exists "ENG". reflexivity.
  - apply (proj2 (@C3_read_resource_one_call Sample.g unit
             (Sample.always (Answered Sample.found)) tt "confluence://pages/12345")).
    exists "12345". reflexivity.
Defined.

(** The two examples of the specification, evaluated. *)
Example read_space_ENG :
  run (Sample.always (Answered Sample.found)) tt
      (read_resource Sample.g "confluence://spaces/ENG")
  = (tt, [space_content_call Sample.g "ENG"],
     Ok (Json.dumps (JObj [("results", JArr [Sample.page])]) 2)).
Proof. reflexivity. Qed.

Example read_page_12345 :
  run (Sample.always (Answered (mkResponse 200 (Some Sample.page)))) tt
      (read_resource Sample.g "confluence://pages/12345")
  = (tt, [page_fetch_call Sample.g "12345"], Ok (Json.dumps Sample.page 2)).
Proof. reflexivity. Qed.

(** A recognised prefix with nothing after it is still a recognised
    resource: the key is the empty text and the call is made. *)
Example read_space_empty_key :
  calls_of (Sample.always (Answered Sample.not_found)) tt
           (read_resource Sample.g "confluence://spaces/")
  = [space_content_call Sample.g EmptyString].
Proof. reflexivity. Qed.

(** C4: a URI that starts with neither [confluence://spaces/] nor
    [confluence://pages/] makes [read_resource] raise the
    unrecognised-resource error (a ValueError naming the URI) without any
    HTTP call, whatever the upstream. *)
Theorem C4_unknown_resource_no_call :
  forall (g : globals) (W : Type) (up : upstream W) (w : W) (uri : string),
    (forall key, uri <> spaces_prefix ++ key) ->
    (forall id, uri <> pages_prefix ++ id) ->
    read_resource g uri = Raise (ValueError ("Unknown resource: " ++ uri)) /\
    run up w (read_resource g uri)
    = (w, [], Err (ValueError ("Unknown resource: " ++ uri))).
Proof.
  intros g W up w uri Hs Hp.
  apply startswith_false_iff in Hs, Hp.
  assert (E : read_resource g uri = Raise (ValueError ("Unknown resource: " ++ uri))).
  { unfold read_resource.
    change "confluence://spaces/" with spaces_prefix.
    change "confluence://pages/" with pages_prefix.
    now rewrite Hs, Hp. }
  split; [exact E | now rewrite E].
Qed.

Lemma C4_unknown_resource_no_call_witness :
  run (Sample.always (Answered Sample.found)) tt
      (read_resource Sample.g "confluence://unknown/x")
  = (tt, [], Err (ValueError "Unknown resource: confluence://unknown/x")).
Proof.
  refine (proj2 (@C4_unknown_resource_no_call Sample.g unit
            (Sample.always (Answered Sample.found)) tt "confluence://unknown/x" _ _));
    intros rest H; discriminate H.
Defined.

(** ** Calling a tool (C5, C6, C7, C10) *)

(** C5: when the arguments object has no [query] entry, [call_tool] on
    [search_content] raises the invalid-arguments error (a ValueError
    naming the parameter) and issues no HTTP call; likewise for [get_page]
    and [page_id]. *)
Theorem C5_missing_argument_no_call :
  forall (g : globals) (W : Type) (up : upstream W) (w : W)
         (fields : list (string * json)),
    (~ In "query" (map fst fields) ->
       run up w (call_tool g "search_content" (JObj fields))
       = (w, [], Err (ValueError "Query parameter is required")))
    /\
    (~ In "page_id" (map fst fields) ->
       run up w (call_tool g "get_page" (JObj fields))
       = (w, [], Err (ValueError "Page ID parameter is required"))).
Proof.
  intros g W up w fields. split; intros H; apply lookup_none_iff in H.
  - rewrite run_call_search. simpl. now rewrite H.
  - rewrite run_call_get_page. simpl. now rewrite H.
Qed.

Lemma C5_missing_argument_no_call_witness :
  run (Sample.always (Answered Sample.found)) tt
      (call_tool Sample.g "search_content" (JObj []))
  = (tt, [], Err (ValueError "Query parameter is required"))
  /\
  run (Sample.always (Answered Sample.found)) tt
      (call_tool Sample.g "get_page" (JObj [("query", JStr "type=page")]))
  = (tt, [], Err (ValueError "Page ID parameter is required")).
Proof.
  split.
  - refine (proj1 (@C5_missing_argument_no_call Sample.g unit
              (Sample.always (Answered Sample.found)) tt []) _).
    simpl. tauto.
  - refine (proj2 (@C5_missing_argument_no_call Sample.g unit
              (Sample.always (Answered Sample.found)) tt
              [("query", JStr "type=page")]) _).
    simpl. intros [H|[]]. discriminate H.
Defined.

(** C6 as stated fails: an arguments object can contain [query] and
    still get no search call, because the value is tested for truth.
    With the empty string under [query], nothing is sent and the
    invalid-arguments error is raised. *)
Lemma C6_present_but_empty_counterexample :
  In "query" (map fst [("query", JStr EmptyString)]) /\
  run (Sample.always (Answered Sample.found)) tt
      (call_tool Sample.g "search_content" (JObj [("query", JStr EmptyString)]))
  = (tt, [], Err (ValueError "Query parameter is required")).
Proof. split; [now left | reflexivity]. Qed.

(** C6 (amended): when the required argument is present and true (not
    empty), [call_tool] on [search_content] issues exactly one search GET
    whose [cql] parameter is the query, and returns the [results] of the
    successful response printed by [json.dumps(..., indent=2)]; on
    [get_page] it issues exactly one page-fetch GET for that id with
    [expand=body.storage] and returns the whole body of the successful
    response printed the same way. *)
Theorem C6_call_tool_dispatch :
  forall (g : globals) (W : Type) (up : upstream W) (w : W)
         (fields : list (string * json)),
    (forall query,
       Py.lookup "query" fields = Some query ->
       Py.truthy query = true ->
       calls_of up w (call_tool g "search_content" (JObj fields)) = [search_call g query] /\
       forall w' r body results,
         up w (search_call g query) = (w', Answered r) ->
         Httpx.is_success r = true ->
         payload r = Some (JObj body) ->
         Py.lookup "results" body = Some results ->
         run up w (call_tool g "search_content" (JObj fields))
         = (w', [search_call g query], Ok (Json.dumps results 2)))
    /\
    (forall page_id,
       Py.lookup "page_id" fields = Some page_id ->
       Py.truthy page_id = true ->
       calls_of up w (call_tool g "get_page" (JObj fields))
       = [page_fetch_call g (Py.str page_id)] /\
       forall w' r body,
         up w (page_fetch_call g (Py.str page_id)) = (w', Answered r) ->
         Httpx.is_success r = true ->
         payload r = Some body ->
         run up w (call_tool g "get_page" (JObj fields))
         = (w', [page_fetch_call g (Py.str page_id)], Ok (Json.dumps body 2))).
Proof.
  intros g W up w fields. split.
  - intros query Hq Ht. unfold calls_of. rewrite run_call_search.
    simpl. rewrite Hq, Ht. split; [reflexivity|].
    intros w' r body results Hup Hok Hbody Hres. rewrite Hup. simpl.
    unfold Httpx.raise_for_status, Httpx.json. rewrite Hok, Hbody. simpl.
    now rewrite Hres.
  - intros page_id Hp Ht. unfold calls_of. rewrite run_call_get_page.
    simpl Py.get. rewrite Hp. cbv iota beta. rewrite Ht. cbv zeta.
    split; [reflexivity|].
    intros w' r body Hup Hok Hbody. rewrite Hup. simpl.
    unfold Httpx.raise_for_status, Httpx.json. now rewrite Hok, Hbody.
Qed.

Lemma C6_call_tool_dispatch_witness :
  run (Sample.always (Answered Sample.found)) tt
      (call_tool Sample.g "search_content" (JObj [("query", JStr "type=page")]))
  = (tt, [search_call Sample.g (JStr "type=page")],
     Ok (Json.dumps (JArr [Sample.page]) 2))
  /\
  run (Sample.always (Answered (mkResponse 200 (Some Sample.page)))) tt
      (call_tool Sample.g "get_page" (JObj [("page_id", JStr "999")]))
  = (tt, [page_fetch_call Sample.g "999"], Ok (Json.dumps Sample.page 2)).
Proof.
  split.
  - refine (proj2 (proj1 (@C6_call_tool_dispatch Sample.g unit
              (Sample.always (Answered Sample.found)) tt
              [("query", JStr "type=page")]) (JStr "type=page") _ _)
              tt Sample.found [("results", JArr [Sample.page])] _ _ _ _ _);
      reflexivity.
  - refine (proj2 (proj2 (@C6_call_tool_dispatch Sample.g unit
              (Sample.always (Answered (mkResponse 200 (Some Sample.page)))) tt
              [("page_id", JStr "999")]) (JStr "999") _ _)
              tt (mkResponse 200 (Some Sample.page)) Sample.page _ _ _);
      reflexivity.
Defined.

(** C7: any tool name other than [search_content] and [get_page] makes
    [call_tool] raise the unknown-tool error (a ValueError naming the
    tool), whatever the arguments are, without any HTTP call. *)
Theorem C7_unknown_tool_no_call :
  forall (g : globals) (W : Type) (up : upstream W) (w : W)
         (name : string) (arguments : json),
    name <> "search_content" ->
    name <> "get_page" ->
    call_tool g name arguments = Raise (ValueError ("Unknown tool: " ++ name)) /\
    run up w (call_tool g name arguments)
    = (w, [], Err (ValueError ("Unknown tool: " ++ name))).
Proof.
  intros g W up w name arguments Hs Hp.
  apply String.eqb_neq in Hs, Hp.
  assert (E : call_tool g name arguments = Raise (ValueError ("Unknown tool: " ++ name))).
  { unfold call_tool. now rewrite Hs, Hp. }
  split; [exact E | now rewrite E].
Qed.

Lemma C7_unknown_tool_no_call_witness :
  run (Sample.always (Answered Sample.found)) tt
      (call_tool Sample.g "delete_page" JNull)
  = (tt, [], Err (ValueError "Unknown tool: delete_page")).
Proof.
  refine (proj2 (@C7_unknown_tool_no_call Sample.g unit
            (Sample.always (Answered Sample.found)) tt "delete_page" JNull _ _));
    intros H; discriminate H.
Defined.

(** C10: a required argument that is present but false (the empty
    string, and any other false value) is rejected exactly as an absent
    one: same run, same invalid-arguments error, no HTTP call. *)
Theorem C10_empty_argument_like_absent :
  forall (g : globals) (W : Type) (up : upstream W) (w : W)
         (fields : list (string * json)) (v : json),
    Py.truthy v = false ->
    (Py.lookup "query" fields = Some v ->
       run up w (call_tool g "search_content" (JObj fields))
       = run up w (call_tool g "search_content" (JObj [])) /\
       run up w (call_tool g "search_content" (JObj fields))
       = (w, [], Err (ValueError "Query parameter is required")))
    /\
    (Py.lookup "page_id" fields = Some v ->
       run up w (call_tool g "get_page" (JObj fields))
       = run up w (call_tool g "get_page" (JObj [])) /\
       run up w (call_tool g "get_page" (JObj fields))
       = (w, [], Err (ValueError "Page ID parameter is required"))).
Proof.
  intros g W up w fields v Hv. split; intros H.
  - rewrite !run_call_search. simpl. now rewrite H, Hv.
  - rewrite !run_call_get_page. simpl Py.get. rewrite H. cbv iota beta.
    now rewrite Hv.
Qed.

Lemma C10_empty_argument_like_absent_witness :
  run (Sample.always (Answered Sample.found)) tt
      (call_tool Sample.g "search_content" (JObj [("query", JStr EmptyString)]))
  = (tt, [], Err (ValueError "Query parameter is required"))
  /\
  run (Sample.always (Answered Sample.found)) tt
      (call_tool Sample.g "get_page" (JObj [("page_id", JStr EmptyString)]))
  = (tt, [], Err (ValueError "Page ID parameter is required")).
Proof.
  split.
  - refine (proj2 (proj1 (@C10_empty_argument_like_absent Sample.g unit
              (Sample.always (Answered Sample.found)) tt
              [("query", JStr EmptyString)] (JStr EmptyString) _) _));
      reflexivity.
  - refine (proj2 (proj2 (@C10_empty_argument_like_absent Sample.g unit
              (Sample.always (Answered Sample.found)) tt
              [("page_id", JStr EmptyString)] (JStr EmptyString) _) _));
      reflexivity.
Defined.

(** ** Start-up (C8) *)

Lemma isascii_app (s t : string) :
  PyStr.isascii (s ++ t) = PyStr.isascii s && PyStr.isascii t.
Proof.
  induction s as [|c s IH]; simpl; [reflexivity|].
  now rewrite IH, andb_assoc.
Qed.

Lemma truthy_false_iff (v : option string) :
  Startup.truthy v = false <-> missing_or_empty v.
Proof.
  unfold missing_or_empty. destruct v as [[|c s]|]; simpl; split; intros H;
    try reflexivity; try discriminate; auto.
  - destruct H as [H|H]; discriminate H.
Qed.

(** The configuration check alone: it fails exactly when one of the
    three values is missing or empty. *)
Lemma config_check_fails_iff (env : environ) :
  Startup.all [Startup.truthy (env "CONFLUENCE_URL");
               Startup.truthy (env "CONFLUENCE_EMAIL");
               Startup.truthy (env "CONFLUENCE_API_TOKEN")] = false
  <-> missing_or_empty (env "CONFLUENCE_URL")
      \/ missing_or_empty (env "CONFLUENCE_EMAIL")
      \/ missing_or_empty (env "CONFLUENCE_API_TOKEN").
Proof.
  rewrite <- !truthy_false_iff. unfold Startup.all. simpl.
  destruct (Startup.truthy (env "CONFLUENCE_URL")),
           (Startup.truthy (env "CONFLUENCE_EMAIL")),
           (Startup.truthy (env "CONFLUENCE_API_TOKEN")); simpl; intuition congruence.
Qed.

(** What a successful start-up leaves in the globals. *)
Lemma startup_ok (env : environ) (g : globals) :
  Startup.startup env = Ok g ->
  exists url email token,
    env "CONFLUENCE_URL" = Some url /\
    env "CONFLUENCE_EMAIL" = Some email /\
    env "CONFLUENCE_API_TOKEN" = Some token /\
    g = {| CONFLUENCE_URL := url; EMAIL := email; API_TOKEN := token;
           headers := [("Authorization", basic_auth email token);
                       ("Content-Type", "application/json")] |}.
Proof.
  unfold Startup.startup.
  destruct (Startup.all _) eqn:Hall; simpl; [|discriminate].
  unfold Startup.all in Hall. simpl in Hall.
  destruct (env "CONFLUENCE_URL") as [url|]; [|discriminate].
  destruct (env "CONFLUENCE_EMAIL") as [email|];
    [|now rewrite andb_false_r in Hall].
  destruct (env "CONFLUENCE_API_TOKEN") as [token|];
    [|now rewrite !andb_false_r in Hall].
  simpl. unfold Base64.encode_ascii.
  destruct (PyStr.isascii _); simpl; [|discriminate].
  intros [= <-]. now exists url, email, token.
Qed.

Example startup_sample : Startup.startup Sample.env_ok = Ok Sample.g.
Proof. reflexivity. Qed.

(** C8 as stated fails in its second half: with all three values set
    and non-empty, start-up still ends with an exception when the account
    name is not ASCII, because [auth_string.encode('ascii')] raises. *)
Lemma C8_non_ascii_account_counterexample :
  ~ missing_or_empty (Sample.env_accent "CONFLUENCE_URL") /\
  ~ missing_or_empty (Sample.env_accent "CONFLUENCE_EMAIL") /\
  ~ missing_or_empty (Sample.env_accent "CONFLUENCE_API_TOKEN") /\
  Startup.startup Sample.env_accent = Err UnicodeEncodeError /\
  script Sample.env_accent = Err UnicodeEncodeError.
Proof.
  repeat split; try reflexivity; intros [H|H]; discriminate H.
Qed.

(** C8 (amended): if one of the three configuration values is missing
    or empty, start-up raises the configuration error and the script ends
    with it, before anything else of the file runs; if all three are
    present and non-empty, the configuration check passes (neither
    start-up nor the script ends with the configuration error), and
    start-up completes, with the base URL and the two headers in place,
    whenever the account name and the token are ASCII. *)
Theorem C8_startup_configuration :
  forall (env : environ),
    (missing_or_empty (env "CONFLUENCE_URL")
     \/ missing_or_empty (env "CONFLUENCE_EMAIL")
     \/ missing_or_empty (env "CONFLUENCE_API_TOKEN") ->
     Startup.startup env = Err Startup.config_error /\
     script env = Err Startup.config_error)
    /\
    (~ missing_or_empty (env "CONFLUENCE_URL") ->
     ~ missing_or_empty (env "CONFLUENCE_EMAIL") ->
     ~ missing_or_empty (env "CONFLUENCE_API_TOKEN") ->
     Startup.startup env <> Err Startup.config_error /\
     script env <> Err Startup.config_error /\
     forall url email token,
       env "CONFLUENCE_URL" = Some url ->
       env "CONFLUENCE_EMAIL" = Some email ->
       env "CONFLUENCE_API_TOKEN" = Some token ->
       PyStr.isascii email = true ->
       PyStr.isascii token = true ->
       Startup.startup env
       = Ok {| CONFLUENCE_URL := url; EMAIL := email; API_TOKEN := token;
               headers := [("Authorization", basic_auth email token);
                           ("Content-Type", "application/json")] |}).
Proof.
  intros env. split.
  - intros H. apply config_check_fails_iff in H.
    assert (E : Startup.startup env = Err Startup.config_error)
      by (unfold Startup.startup; now rewrite H).
    split; [exact E|]. unfold script. now rewrite E.
  - intros Hu He Ht.
    assert (Hall : Startup.all [Startup.truthy (env "CONFLUENCE_URL");
                                Startup.truthy (env "CONFLUENCE_EMAIL");
                                Startup.truthy (env "CONFLUENCE_API_TOKEN")] = true).
    { destruct (Startup.all _) eqn:E; [reflexivity|].
      apply config_check_fails_iff in E. tauto. }
    assert (N : Startup.startup env <> Err Startup.config_error).
    { unfold Startup.startup, Base64.encode_ascii. rewrite Hall. simpl.
      destruct (PyStr.isascii _); simpl; discriminate. }
    split; [exact N | split].
    + unfold script. destruct (Startup.startup env) as [g|e]; simpl; [discriminate|].
      intros [= ->]. now apply N.
    + intros url email token Eu Ee Et Ae At.
      unfold Startup.startup. rewrite Hall, Eu, Ee, Et. simpl.
      unfold Base64.encode_ascii.
      change (email ++ String ":" token) with (email ++ ":" ++ token).
      rewrite !isascii_app, Ae, At. reflexivity.
Qed.

Lemma C8_startup_configuration_witness :
  script (Sample.env (Some "https://wiki.example") (Some "user") None)
  = Err Startup.config_error
  /\
  Startup.startup Sample.env_ok
  = Ok {| CONFLUENCE_URL := "https://wiki.example"; EMAIL := "user"; API_TOKEN := "pass";
          headers := [("Authorization", basic_auth "user" "pass");
                      ("Content-Type", "application/json")] |}.
Proof.
  split.
  - refine (proj2 (proj1 (C8_startup_configuration
              (Sample.env (Some "https://wiki.example") (Some "user") None)) _)).
    right. right. left. reflexivity.
  - refine (proj2 (proj2 (proj2 (C8_startup_configuration Sample.env_ok) _ _ _))
              "https://wiki.example" "user" "pass" _ _ _ _ _);
      try reflexivity; intros [H|H]; discriminate H.
Defined.

(** ** The authorization header (C9) *)

Section EveryCall.

Variable P : Request -> Prop.

Lemma every_call_lift {A : Type} (r : result A) : every_call P (lift r).
Proof. now destruct r. Qed.

Lemma every_call_bind {A B : Type} (m : prog A) (f : A -> prog B) :
  every_call P m -> (forall a, every_call P (f a)) -> every_call P (bind m f).
Proof.
  intros Hm Hf. induction m as [a|e|rq k IH]; simpl in *.
  - apply Hf.
  - exact I.
  - destruct Hm as [Hrq Hk]. split; [exact Hrq|]. intros a. now apply IH.
Qed.

Lemma every_call_client_get (rq : Request) : P rq -> every_call P (client_get rq).
Proof. intros H. split; [exact H|]. intros a. apply every_call_lift. Qed.

Context {W : Type}.
Variable up : upstream W.

(** What holds of every possible call holds of the calls of a run. *)
Lemma every_call_run {A : Type} (p : prog A) (w : W) :
  every_call P p -> Forall P (calls_of up w p).
Proof.
  unfold calls_of. revert w. induction p as [a|e|rq k IH]; intros w Hp; simpl.
  - constructor.
  - constructor.
  - destruct Hp as [Hrq Hk]. destruct (up w rq) as [w1 a].
    specialize (IH a w1 (Hk a)).
    destruct (run up w1 (k a)) as [[w2 calls] r]. simpl in *.
    now constructor.
Qed.

End EveryCall.

(** Walks through a handler: binds, pure steps and calls. *)
Ltac every_call_steps :=
  repeat first
    [ exact I
    | apply every_call_lift
    | apply every_call_client_get; reflexivity
    | apply every_call_bind; [|intros ?] ].

Section Headers.

Variable g : globals.

Lemma search_confluence_carries (query : json) :
  every_call (carries g) (search_confluence g query).
Proof. unfold search_confluence. every_call_steps. Qed.

Lemma get_page_content_carries (page_id : json) :
  every_call (carries g) (get_page_content g page_id).
Proof. unfold get_page_content. every_call_steps. Qed.

Lemma list_resources_carries : every_call (carries g) (list_resources g).
Proof. unfold list_resources. every_call_steps. Qed.

Lemma read_resource_carries (uri : string) :
  every_call (carries g) (read_resource g uri).
Proof.
  unfold read_resource.
  destruct (PyStr.startswith uri "confluence://spaces/").
  - every_call_steps.
  - destruct (PyStr.startswith uri "confluence://pages/"); [|exact I].
    apply every_call_bind; [apply every_call_lift|]. intros page_id.
    apply every_call_bind; [apply get_page_content_carries|]. now intros.
Qed.

Lemma call_tool_carries (name : string) (arguments : json) :
  every_call (carries g) (call_tool g name arguments).
Proof.
  unfold call_tool.
  destruct (String.eqb name "search_content").
  - apply every_call_bind; [apply every_call_lift|]. intros query.
    destruct (negb (Py.truthy query)); [exact I|].
    apply every_call_bind; [apply search_confluence_carries|]. now intros.
  - destruct (String.eqb name "get_page"); [|exact I].
    apply every_call_bind; [apply every_call_lift|]. intros page_id.
    destruct (negb (Py.truthy page_id)); [exact I|].
    apply every_call_bind; [apply get_page_content_carries|]. now intros.
Qed.

(** Every handler sends the start-up headers and nothing else. *)
Lemma handle_carries (rq : host_request) : every_call (carries g) (handle g rq).
Proof.
  destruct rq as [|uri| |name arguments]; unfold handle;
    (apply every_call_bind; [|intros; exact I]).
  - apply list_resources_carries.
  - apply read_resource_carries.
  - exact I.
  - apply call_tool_carries.
Qed.

Lemma serve_carries {W : Type} (up : upstream W) (w : W) (rqs : list host_request) :
  Forall (carries g) (snd (fst (serve up w g rqs))).
Proof.
  revert w. induction rqs as [|rq rqs IH]; intros w; simpl; [constructor|].
  pose proof (@every_call_run (carries g) W up _ (handle g rq) w (handle_carries rq))
    as Hrq.
  unfold calls_of in Hrq.
  destruct (run up w (handle g rq)) as [[w1 calls] r].
  specialize (IH w1). destruct (serve up w1 g rqs) as [[w2 calls'] rs].
  simpl in *. apply Forall_app. now split.
Qed.

End Headers.

(** C9: in a process that got past start-up, the header dictionary is
    the one value built by [startup]; its Authorization entry is [Basic]
    followed by the base64 text of [email:token]; and every outbound call
    of every handler, over the whole sequence of host requests, carries
    exactly that dictionary.  The handlers only read the globals, so no
    request changes the value seen by a later one. *)
Theorem C9_one_authorization_header :
  forall (env : environ) (W : Type) (up : upstream W) (w : W)
         (rqs : list host_request) (calls : list Request)
         (replies : list (result host_reply)),
    main env up w rqs = Served calls replies ->
    exists g email token,
      Startup.startup env = Ok g /\
      env "CONFLUENCE_EMAIL" = Some email /\
      env "CONFLUENCE_API_TOKEN" = Some token /\
      header "Authorization" (headers g) = Some (basic_auth email token) /\
      Forall (fun rq => req_headers rq = headers g /\
                        header "Authorization" (req_headers rq)
                        = Some (basic_auth email token)) calls.
Proof.
  intros env W up w rqs calls replies. unfold main.
  destruct (Startup.startup env) as [g|e] eqn:Hg; [|discriminate].
  destruct (startup_ok env Hg) as (url & email & token & Hu & He & Ht & Hrec).
  pose proof (serve_carries g up w rqs) as Hserve.
  destruct (serve up w g rqs) as [[w' calls'] replies']. simpl in Hserve.
  intros [= <- <-].
  assert (Hauth : header "Authorization" (headers g) = Some (basic_auth email token))
    by (rewrite Hrec; reflexivity).
  exists g, email, token. repeat split; try assumption.
  eapply Forall_impl; [|exact Hserve].
  intros rq Hrq. unfold carries in Hrq. split; [exact Hrq | now rewrite Hrq].
Qed.

Lemma C9_one_authorization_header_witness :
  exists g email token,
    Startup.startup Sample.env_ok = Ok g /\
    Sample.env_ok "CONFLUENCE_EMAIL" = Some email /\
    Sample.env_ok "CONFLUENCE_API_TOKEN" = Some token /\
    header "Authorization" (headers g) = Some (basic_auth email token) /\
    Forall (fun rq => req_headers rq = headers g /\
                      header "Authorization" (req_headers rq)
                      = Some (basic_auth email token)) Sample.session_calls.
Proof.
  exact (@C9_one_authorization_header Sample.env_ok unit
           (Sample.always (Answered Sample.listing)) tt Sample.session
           Sample.session_calls Sample.session_replies eq_refl).
Defined.

(* ================================================================== *)
(** * Further properties of the handlers *)

(** ** Every way a handler can run *)

Section HandlerRuns.

Context {W : Type}.
Variables (up : upstream W) (g : globals).

(** The three ways [read_resource] can go. *)
Lemma run_read_resource_cases (w : W) (uri : string) :
  (exists key,
     PyStr.startswith uri spaces_prefix = true /\
     last_segment uri = Ok key /\
     run up w (read_resource g uri)
     = (fst (up w (space_content_call g key)), [space_content_call g key],
        try response <- received (snd (up w (space_content_call g key))) ;
        try body <- Httpx.json response ;
        Ok (Json.dumps body 2)))
  \/
  (exists id,
     PyStr.startswith uri spaces_prefix = false /\
     PyStr.startswith uri pages_prefix = true /\
     last_segment uri = Ok id /\
     run up w (read_resource g uri)
     = (fst (up w (page_fetch_call g id)), [page_fetch_call g id],
        try response <- received (snd (up w (page_fetch_call g id))) ;
        try _ <- Httpx.raise_for_status response ;
        try body <- Httpx.json response ;
        Ok (Json.dumps body 2)))
  \/
  (PyStr.startswith uri spaces_prefix = false /\
   PyStr.startswith uri pages_prefix = false /\
   run up w (read_resource g uri)
   = (w, [], Err (ValueError ("Unknown resource: " ++ uri)))).
Proof.
  destruct (last_segment_total uri) as [seg Hseg].
  destruct (PyStr.startswith uri spaces_prefix) eqn:Hs.
  - left. exists seg. repeat split; try assumption.
    now apply run_read_space.
  - destruct (PyStr.startswith uri pages_prefix) eqn:Hp.
    + right. left. exists seg. repeat split; try assumption.
      now apply run_read_page.
    + right. right. repeat split.
      unfold read_resource.
      change "confluence://spaces/" with spaces_prefix.
      change "confluence://pages/" with pages_prefix.
      now rewrite Hs, Hp.
Qed.

(** A name that is neither tool is refused before anything else. *)
Lemma run_call_other (w : W) (name : string) (arguments : json) :
  String.eqb name "search_content" = false ->
  String.eqb name "get_page" = false ->
  run up w (call_tool g name arguments)
  = (w, [], Err (ValueError ("Unknown tool: " ++ name))).
Proof. intros Hs Hp. unfold call_tool. now rewrite Hs, Hp. Qed.

(** The calls a handler can issue. *)
Lemma list_resources_calls (w : W) :
  calls_of up w (list_resources g) = [space_listing_call g].
Proof. unfold calls_of. now rewrite run_list_resources. Qed.

Lemma read_resource_calls (w : W) (uri : string) :
  calls_of up w (read_resource g uri) = []
  \/ (exists key, calls_of up w (read_resource g uri) = [space_content_call g key])
  \/ (exists id, calls_of up w (read_resource g uri) = [page_fetch_call g id]).
Proof.
  unfold calls_of.
  destruct (run_read_resource_cases w uri)
    as [(key & _ & _ & ->) | [(id & _ & _ & _ & ->) | (_ & _ & ->)]].
  - right. left. now exists key.
  - right. right. now exists id.
  - now left.
Qed.

Lemma call_tool_calls (w : W) (name : string) (arguments : json) :
  calls_of up w (call_tool g name arguments) = []
  \/ (exists query, calls_of up w (call_tool g name arguments) = [search_call g query])
  \/ (exists id, calls_of up w (call_tool g name arguments) = [page_fetch_call g id]).
Proof.
  unfold calls_of.
  destruct (String.eqb name "search_content") eqn:Hs.
  - apply String.eqb_eq in Hs. subst name. rewrite run_call_search.
    destruct (Py.get arguments "query" JNull) as [query|e]; [|now left].
    destruct (Py.truthy query); [|now left].
    right. left. now exists query.
  - destruct (String.eqb name "get_page") eqn:Hp.
    + apply String.eqb_eq in Hp. subst name. rewrite run_call_get_page.
      destruct (Py.get arguments "page_id" JNull) as [page_id|e]; [|now left].
      destruct (Py.truthy page_id); [|now left].
      right. right. now exists (Py.str page_id).
    + left. now rewrite run_call_other.
Qed.

End HandlerRuns.

(** ** One call at most, and only to the wiki API *)

(** X3: no handler ever issues a second call, whatever the upstream
    answers: [list_resources] issues exactly one, [read_resource] and
    [call_tool] at most one, [list_tools] none.  There is no retry and no
    follow-up request. *)
Theorem X3_at_most_one_call :
  forall (g : globals) (W : Type) (up : upstream W) (w : W),
    List.length (calls_of up w (list_resources g)) = 1%nat /\
    (forall uri, (List.length (calls_of up w (read_resource g uri)) <= 1)%nat) /\
    List.length (calls_of up w list_tools) = 0%nat /\
    (forall name arguments,
       (List.length (calls_of up w (call_tool g name arguments)) <= 1)%nat).
Proof.
  intros g W up w. repeat split.
  - now rewrite list_resources_calls.
  - intros uri.
    destruct (read_resource_calls up g w uri) as [-> | [[key ->] | [id ->]]];
      simpl; lia.
  - intros name arguments.
    destruct (call_tool_calls up g w name arguments) as [-> | [[q ->] | [id ->]]];
      simpl; lia.
Qed.

(** The pieces of a split text have no separator in them. *)
Lemma split_pieces (sep : ascii) (s : string) :
  Forall (fun piece => PyStr.contains sep piece = false) (PyStr.split sep s).
Proof.
  induction s as [|c s IH]; simpl; [repeat constructor|].
  destruct (Ascii.eqb c sep) eqn:E.
  - constructor; [reflexivity | exact IH].
  - destruct (PyStr.split sep s) as [|piece rest]; [repeat constructor; simpl|].
    + now rewrite Ascii.eqb_sym, E.
    + inversion IH as [|? ? Hpiece Hrest]; subst.
      constructor; [|exact Hrest]. simpl. now rewrite Ascii.eqb_sym, E, Hpiece.
Qed.

Lemma last_item_in (l : list string) (x : string) :
  PyStr.last_item l = Some x -> In x l.
Proof.
  induction l as [|y l IH]; simpl; [discriminate|].
  destruct l as [|z l]; [intros [= ->]; now left|].
  intros H. right. now apply IH.
Qed.

(** The key or id that [read_resource] puts in a URL has no slash. *)
Lemma last_segment_no_slash (uri seg : string) :
  last_segment uri = Ok seg -> PyStr.contains "/"%char seg = false.
Proof.
  unfold last_segment.
  destruct (PyStr.last_item (PyStr.split "/" uri)) as [x|] eqn:E; [|discriminate].
  intros [= <-]. apply last_item_in in E.
  pose proof (split_pieces "/"%char uri) as H.
  rewrite Forall_forall in H. now apply H.
Qed.

(** X4: the handlers issue no request other than the four GET calls of
    lines 33-87, each with the start-up headers.  [list_resources] issues
    the space listing.  [read_resource] issues nothing, or the content
    listing or the page fetch for one segment, and that segment has no
    slash in it.  [call_tool] issues nothing, or the search whose [cql] is
    the true [query] of the arguments, or the page fetch for the text of
    the true [page_id] of the arguments. *)
Theorem X4_calls_are_the_four_requests :
  forall (g : globals) (W : Type) (up : upstream W) (w : W),
    calls_of up w (list_resources g) = [space_listing_call g] /\
    (forall uri,
       calls_of up w (read_resource g uri) = []
       \/ exists seg,
            PyStr.contains "/"%char seg = false /\
            (calls_of up w (read_resource g uri) = [space_content_call g seg]
             \/ calls_of up w (read_resource g uri) = [page_fetch_call g seg])) /\
    (forall name arguments,
       calls_of up w (call_tool g name arguments) = []
       \/ (exists query,
             Py.get arguments "query" JNull = Ok query /\ Py.truthy query = true /\
             calls_of up w (call_tool g name arguments) = [search_call g query])
       \/ (exists page_id,
             Py.get arguments "page_id" JNull = Ok page_id /\ Py.truthy page_id = true /\
             calls_of up w (call_tool g name arguments)
             = [page_fetch_call g (Py.str page_id)])).
Proof.
  intros g W up w. split; [apply list_resources_calls | split].
  - intros uri. unfold calls_of.
    destruct (run_read_resource_cases up g w uri)
      as [(key & _ & Hkey & ->) | [(id & _ & _ & Hid & ->) | (_ & _ & ->)]].
    + right. exists key. split; [now apply (last_segment_no_slash uri) | now left].
    + right. exists id. split; [now apply (last_segment_no_slash uri) | now right].
    + now left.
  - intros name arguments. unfold calls_of.
    destruct (String.eqb name "search_content") eqn:Hs.
    + apply String.eqb_eq in Hs. subst name. rewrite run_call_search.
      destruct (Py.get arguments "query" JNull) as [query|e]; [|now left].
      destruct (Py.truthy query) eqn:Ht; [|now left].
      right. left. now exists query.
    + destruct (String.eqb name "get_page") eqn:Hp.
      * apply String.eqb_eq in Hp. subst name. rewrite run_call_get_page.
        destruct (Py.get arguments "page_id" JNull) as [page_id|e]; [|now left].
        destruct (Py.truthy page_id) eqn:Ht; [|now left].
        right. right. now exists page_id.
      * left. now rewrite run_call_other.
Qed.

(** ** Failures of the transport and of the payload *)

Section Failures.

Context {W : Type}.
Variables (up : upstream W) (g : globals).

(** What a handler returns once the answer to its call is known. *)
Lemma outcome_list_resources (w : W) (a : answer) :
  snd (up w (space_listing_call g)) = a ->
  snd (run up w (list_resources g))
  = (try response <- received a ;
     try body <- Httpx.json response ;
     try spaces_data <- Py.getitem body "results" ;
     try spaces <- Py.iter spaces_data ;
     comprehension space_resource spaces).
Proof. intros <-. now rewrite run_list_resources. Qed.

Lemma outcome_read_space (w : W) (rest : string) (a : answer) :
  (forall rq, snd (up w rq) = a) ->
  snd (run up w (read_resource g (spaces_prefix ++ rest)))
  = (try response <- received a ;
     try body <- Httpx.json response ;
     Ok (Json.dumps body 2)).
Proof.
  intros Ha.
  assert (Hs' : PyStr.startswith (spaces_prefix ++ rest) spaces_prefix = true)
    by (apply startswith_true_iff; now exists rest).
  destruct (run_read_resource_cases up g w (spaces_prefix ++ rest))
    as [(key & _ & _ & ->) | [(id & Hs & _) | (Hs & _)]].
  - simpl. now rewrite Ha.
  - congruence.
  - congruence.
Qed.

Lemma outcome_read_page (w : W) (rest : string) (a : answer) :
  (forall rq, snd (up w rq) = a) ->
  snd (run up w (read_resource g (pages_prefix ++ rest)))
  = (try response <- received a ;
     try _ <- Httpx.raise_for_status response ;
     try body <- Httpx.json response ;
     Ok (Json.dumps body 2)).
Proof.
  intros Ha.
  assert (Hp : PyStr.startswith (pages_prefix ++ rest) pages_prefix = true)
    by (apply startswith_true_iff; now exists rest).
  destruct (run_read_resource_cases up g w (pages_prefix ++ rest))
    as [(key & Hs & _) | [(id & _ & _ & _ & ->) | (_ & Hp' & _)]].
  - rewrite pages_not_spaces in Hs. discriminate Hs.
  - simpl. now rewrite Ha.
  - congruence.
Qed.

Lemma outcome_call_search (w : W) (fields : list (string * json)) (query : json) (a : answer) :
  Py.lookup "query" fields = Some query ->
  Py.truthy query = true ->
  snd (up w (search_call g query)) = a ->
  snd (run up w (call_tool g "search_content" (JObj fields)))
  = (try response <- received a ;
     try _ <- Httpx.raise_for_status response ;
     try body <- Httpx.json response ;
     try results <- Py.getitem body "results" ;
     Ok (Json.dumps results 2)).
Proof.
  intros Hq Ht <-. rewrite run_call_search. simpl. now rewrite Hq, Ht.
Qed.

Lemma outcome_call_get_page (w : W) (fields : list (string * json)) (page_id : json)
  (a : answer) :
  Py.lookup "page_id" fields = Some page_id ->
  Py.truthy page_id = true ->
  snd (up w (page_fetch_call g (Py.str page_id))) = a ->
  snd (run up w (call_tool g "get_page" (JObj fields)))
  = (try response <- received a ;
     try _ <- Httpx.raise_for_status response ;
     try body <- Httpx.json response ;
     Ok (Json.dumps body 2)).
Proof.
  intros Hp Ht <-. rewrite run_call_get_page. simpl Py.get. rewrite Hp.
  cbv iota beta. now rewrite Ht.
Qed.

End Failures.

(** X5: when the transport fails (the call raises instead of returning
    a response), every handler that made a call ends with that same
    transport error: nothing is retried, caught or replaced. *)
Theorem X5_transport_failure_propagates :
  forall (g : globals) (W : Type) (up : upstream W) (w : W) (msg : string),
    (forall w0 rq, snd (up w0 rq) = Failed msg) ->
    snd (run up w (list_resources g)) = Err (TransportError msg) /\
    (forall rest,
       snd (run up w (read_resource g (spaces_prefix ++ rest))) = Err (TransportError msg) /\
       snd (run up w (read_resource g (pages_prefix ++ rest))) = Err (TransportError msg)) /\
    (forall fields v,
       Py.truthy v = true ->
       (Py.lookup "query" fields = Some v ->
          snd (run up w (call_tool g "search_content" (JObj fields)))
          = Err (TransportError msg)) /\
       (Py.lookup "page_id" fields = Some v ->
          snd (run up w (call_tool g "get_page" (JObj fields)))
          = Err (TransportError msg))).
Proof.
  intros g W up w msg Hup. split; [|split].
  - now rewrite (outcome_list_resources up g w (Hup w _)).
  - intros rest. split.
    + now rewrite (outcome_read_space up g w rest (Hup w)).
    + now rewrite (outcome_read_page up g w rest (Hup w)).
  - intros fields v Hv. split.
    + intros Hq. now rewrite (outcome_call_search up g w fields Hq Hv (Hup w _)).
    + intros Hp. now rewrite (outcome_call_get_page up g w fields Hp Hv (Hup w _)).
Qed.

Lemma X5_transport_failure_propagates_witness :
  snd (run (Sample.always Fixtures.refused) tt (list_resources Sample.g))
  = Err (TransportError "connection refused")
  /\
  snd (run (Sample.always Fixtures.refused) tt
           (call_tool Sample.g "get_page" (JObj [("page_id", JStr "12345")])))
  = Err (TransportError "connection refused").
Proof.
  split.
  - refine (proj1 (@X5_transport_failure_propagates Sample.g unit
              (Sample.always Fixtures.refused) tt "connection refused" _)).
    reflexivity.
  - refine (proj2 (proj2 (proj2 (@X5_transport_failure_propagates Sample.g unit
              (Sample.always Fixtures.refused) tt "connection refused" _))
              [("page_id", JStr "12345")] (JStr "12345") _) _); reflexivity.
Defined.

(** X7: the three paths that check the status (reading a page, and the
    two tools) turn every non-2xx response into an HTTPStatusError that
    carries the status and the payload of that response, whether or not the
    payload is JSON. *)
Theorem X7_checked_paths_surface_status :
  forall (g : globals) (W : Type) (up : upstream W) (w : W) (r : Response),
    (forall w0 rq, snd (up w0 rq) = Answered r) ->
    Httpx.is_success r = false ->
    (forall rest,
       snd (run up w (read_resource g (pages_prefix ++ rest)))
       = Err (HTTPStatusError (status_code r) (payload r))) /\
    (forall fields v,
       Py.truthy v = true ->
       (Py.lookup "query" fields = Some v ->
          snd (run up w (call_tool g "search_content" (JObj fields)))
          = Err (HTTPStatusError (status_code r) (payload r))) /\
       (Py.lookup "page_id" fields = Some v ->
          snd (run up w (call_tool g "get_page" (JObj fields)))
          = Err (HTTPStatusError (status_code r) (payload r)))).
Proof.
  intros g W up w r Hup Hr.
  assert (E : Httpx.raise_for_status r = Err (HTTPStatusError (status_code r) (payload r)))
    by (unfold Httpx.raise_for_status; now rewrite Hr).
  split.
  - intros rest. rewrite (outcome_read_page up g w rest (Hup w)). simpl. now rewrite E.
  - intros fields v Hv. split.
    + intros Hq. rewrite (outcome_call_search up g w fields Hq Hv (Hup w _)).
      simpl. now rewrite E.
    + intros Hp. rewrite (outcome_call_get_page up g w fields Hp Hv (Hup w _)).
      simpl. now rewrite E.
Qed.

Lemma X7_checked_paths_surface_status_witness :
  snd (run (Sample.always (Answered Fixtures.bad_gateway)) tt
           (read_resource Sample.g "confluence://pages/12345"))
  = Err (HTTPStatusError 502 None)
  /\
  snd (run (Sample.always (Answered Sample.not_found)) tt
           (call_tool Sample.g "search_content" (JObj [("query", JStr "type=page")])))
  = Err (HTTPStatusError 404 (payload Sample.not_found)).
Proof.
  split.
  - refine (proj1 (@X7_checked_paths_surface_status Sample.g unit
              (Sample.always (Answered Fixtures.bad_gateway)) tt Fixtures.bad_gateway _ _)
              "12345"); reflexivity.
  - refine (proj1 (proj2 (@X7_checked_paths_surface_status Sample.g unit
              (Sample.always (Answered Sample.not_found)) tt Sample.not_found _ _)
              [("query", JStr "type=page")] (JStr "type=page") _) _); reflexivity.
Defined.

(** X6: a response whose body yields no JSON value makes
    [response.json()] raise: JSONDecodeError when the body is text,
    UnicodeDecodeError when its bytes are not text.  The space listing and
    the space content read raise it at any status, because they never look
    at the status; the checked paths raise it only on a 2xx response. *)
Theorem X6_undecodable_body :
  forall (g : globals) (W : Type) (up : upstream W) (w : W) (r : Response),
    (forall w0 rq, snd (up w0 rq) = Answered r) ->
    payload r = None ->
    let e := if text_body r then JSONDecodeError else UnicodeDecodeError in
    snd (run up w (list_resources g)) = Err e /\
    (forall rest,
       snd (run up w (read_resource g (spaces_prefix ++ rest))) = Err e) /\
    (Httpx.is_success r = true ->
     (forall rest,
        snd (run up w (read_resource g (pages_prefix ++ rest))) = Err e) /\
     (forall fields v,
        Py.truthy v = true ->
        (Py.lookup "query" fields = Some v ->
           snd (run up w (call_tool g "search_content" (JObj fields))) = Err e) /\
        (Py.lookup "page_id" fields = Some v ->
           snd (run up w (call_tool g "get_page" (JObj fields))) = Err e))).
Proof.
  intros g W up w r Hup Hr e.
  assert (J : Httpx.json r = Err e).
  { unfold Httpx.json, e. rewrite Hr. now destruct (text_body r). }
  split; [|split].
  - rewrite (outcome_list_resources up g w (Hup w _)). simpl. now rewrite J.
  - intros rest. rewrite (outcome_read_space up g w rest (Hup w)). simpl. now rewrite J.
  - intros Hok.
    assert (E : Httpx.raise_for_status r = Ok tt)
      by (unfold Httpx.raise_for_status; now rewrite Hok).
    split.
    + intros rest. rewrite (outcome_read_page up g w rest (Hup w)). simpl.
      now rewrite E, J.
    + intros fields v Hv. split.
      * intros Hq. rewrite (outcome_call_search up g w fields Hq Hv (Hup w _)).
        simpl. now rewrite E, J.
      * intros Hp. rewrite (outcome_call_get_page up g w fields Hp Hv (Hup w _)).
        simpl. now rewrite E, J.
Qed.

Lemma X6_undecodable_body_witness :
  snd (run (Sample.always (Answered Fixtures.bad_gateway)) tt (list_resources Sample.g))
  = Err JSONDecodeError
  /\
  snd (run (Sample.always (Answered Fixtures.login_page)) tt
           (call_tool Sample.g "get_page" (JObj [("page_id", JStr "12345")])))
  = Err JSONDecodeError
  /\
  snd (run (Sample.always (Answered Fixtures.binary_page)) tt
           (read_resource Sample.g "confluence://spaces/ENG"))
  = Err UnicodeDecodeError.
Proof.
  split; [|split].
  - refine (proj1 (@X6_undecodable_body Sample.g unit
              (Sample.always (Answered Fixtures.bad_gateway)) tt Fixtures.bad_gateway _ _));
      reflexivity.
  - refine (proj2 (proj2 (proj2 (proj2 (@X6_undecodable_body Sample.g unit
              (Sample.always (Answered Fixtures.login_page)) tt Fixtures.login_page _ _)) _)
              [("page_id", JStr "12345")] (JStr "12345") _) _); reflexivity.
  - refine (proj1 (proj2 (@X6_undecodable_body Sample.g unit
              (Sample.always (Answered Fixtures.binary_page)) tt Fixtures.binary_page _ _))
              "ENG"); reflexivity.
Defined.

(** X15: the two operations that unwrap [results] need the key: on a
    decoded object without it, the space listing (at any status) and the
    search (on a 2xx response) raise KeyError('results'); on a decoded
    value that is not an object they raise TypeError.  Neither falls back
    to an empty result. *)
Theorem X15_results_key_required :
  forall (g : globals) (W : Type) (up : upstream W) (w : W) (r : Response) (v : json),
    (forall w0 rq, snd (up w0 rq) = Answered r) ->
    payload r = Some v ->
    (forall body,
       v = JObj body -> Py.lookup "results" body = None ->
       snd (run up w (list_resources g)) = Err (KeyError "results") /\
       forall fields query,
         Httpx.is_success r = true ->
         Py.lookup "query" fields = Some query -> Py.truthy query = true ->
         snd (run up w (call_tool g "search_content" (JObj fields)))
         = Err (KeyError "results"))
    /\
    ((forall body, v <> JObj body) ->
       snd (run up w (list_resources g)) = Err TypeError /\
       forall fields query,
         Httpx.is_success r = true ->
         Py.lookup "query" fields = Some query -> Py.truthy query = true ->
         snd (run up w (call_tool g "search_content" (JObj fields))) = Err TypeError).
Proof.
  intros g W up w r v Hup Hv.
  assert (J : Httpx.json r = Ok v) by (unfold Httpx.json; now rewrite Hv).
  split.
  - intros body -> Hres. split.
    + rewrite (outcome_list_resources up g w (Hup w _)). simpl. rewrite J. simpl.
      now rewrite Hres.
    + intros fields query Hok Hq Ht.
      rewrite (outcome_call_search up g w fields Hq Ht (Hup w _)). simpl.
      unfold Httpx.raise_for_status. rewrite Hok, J. simpl. now rewrite Hres.
  - intros Hobj.
    assert (G : Py.getitem v "results" = Err TypeError).
    { destruct v as [| | | | |body]; try reflexivity. now destruct (Hobj body). }
    split.
    + rewrite (outcome_list_resources up g w (Hup w _)). simpl. rewrite J. simpl.
      now rewrite G.
    + intros fields query Hok Hq Ht.
      rewrite (outcome_call_search up g w fields Hq Ht (Hup w _)). simpl.
      unfold Httpx.raise_for_status. rewrite Hok, J. simpl. now rewrite G.
Qed.

Lemma X15_results_key_required_witness :
  snd (run (Sample.always (Answered Fixtures.no_results)) tt (list_resources Sample.g))
  = Err (KeyError "results")
  /\
  snd (run (Sample.always (Answered (mkResponse 200 (Some (JArr []))))) tt
           (call_tool Sample.g "search_content" (JObj [("query", JStr "type=page")])))
  = Err TypeError.
Proof.
  split.
  - refine (proj1 (proj1 (@X15_results_key_required Sample.g unit
              (Sample.always (Answered Fixtures.no_results)) tt Fixtures.no_results
              (JObj [("message", JStr "ok")]) _ _) [("message", JStr "ok")] _ _));
      reflexivity.
  - refine (proj2 (proj2 (@X15_results_key_required Sample.g unit
              (Sample.always (Answered (mkResponse 200 (Some (JArr []))))) tt
              (mkResponse 200 (Some (JArr []))) (JArr []) _ _) _)
              [("query", JStr "type=page")] (JStr "type=page") _ _ _);
      try reflexivity.
    intros body H. discriminate H.
Defined.

(** ** Tool arguments and the advertised tools *)

(** X13: with either tool name, arguments that are not a JSON object
    (null, a list, a string, a number) make [arguments.get] fail: the call
    ends with AttributeError, not with the invalid-arguments error, and
    nothing is sent. *)
Theorem X13_arguments_must_be_object :
  forall (g : globals) (W : Type) (up : upstream W) (w : W) (arguments : json),
    (forall fields, arguments <> JObj fields) ->
    run up w (call_tool g "search_content" arguments) = (w, [], Err AttributeError) /\
    run up w (call_tool g "get_page" arguments) = (w, [], Err AttributeError).
Proof.
  intros g W up w arguments Hobj.
  assert (G : forall k, Py.get arguments k JNull = Err AttributeError).
  { intros k. destruct arguments as [| | | | |fields]; try reflexivity.
    now destruct (Hobj fields). }
  split.
  - rewrite run_call_search. now rewrite G.
  - rewrite run_call_get_page. now rewrite G.
Qed.

Lemma X13_arguments_must_be_object_witness :
  run (Sample.always (Answered Sample.found)) tt
      (call_tool Sample.g "search_content" JNull)
  = (tt, [], Err AttributeError)
  /\
  run (Sample.always (Answered Sample.found)) tt
      (call_tool Sample.g "get_page" (JArr [JStr "12345"]))
  = (tt, [], Err AttributeError).
Proof.
  split.
  - refine (proj1 (@X13_arguments_must_be_object Sample.g unit
              (Sample.always (Answered Sample.found)) tt JNull _)).
    intros fields H. discriminate H.
  - refine (proj2 (@X13_arguments_must_be_object Sample.g unit
              (Sample.always (Answered Sample.found)) tt (JArr [JStr "12345"]) _)).
    intros fields H. discriminate H.
Defined.

(** The unknown-tool error is raised by the final branch only. *)
Lemma known_tool_outcome {W : Type} (up : upstream W) (g : globals) (w : W)
  (name : string) (arguments : json) :
  name = "search_content" \/ name = "get_page" ->
  snd (run up w (call_tool g name arguments)) <> Err (ValueError ("Unknown tool: " ++ name)).
Proof.
  intros [-> | ->].
  - rewrite run_call_search.
    destruct (Py.get arguments "query" JNull) as [query|e] eqn:G.
    + destruct (Py.truthy query); simpl; [|discriminate].
      destruct (snd (up w _)) as [r|msg]; simpl; [|discriminate].
      destruct (Httpx.raise_for_status r) as [[]|e] eqn:E; simpl.
      * destruct (Httpx.json r) as [body|e] eqn:J; simpl.
        -- destruct (Py.getitem body "results") as [res|e] eqn:R; simpl; [discriminate|].
           destruct body as [| | | | |fields]; simpl in R; try (injection R as <-; discriminate).
           destruct (Py.lookup "results" fields); [discriminate R|].
           injection R as <-. discriminate.
        -- unfold Httpx.json in J. destruct (payload r); [discriminate J|].
           destruct (text_body r); injection J as <-; discriminate.
      * unfold Httpx.raise_for_status in E. destruct (Httpx.is_success r); [discriminate E|].
        injection E as <-. discriminate.
    + simpl. destruct arguments as [| | | | |fields]; simpl in G;
        try (injection G as <-; discriminate).
      destruct (Py.lookup "query" fields); discriminate G.
  - rewrite run_call_get_page.
    destruct (Py.get arguments "page_id" JNull) as [page_id|e] eqn:G.
    + destruct (Py.truthy page_id); simpl; [|discriminate].
      destruct (snd (up w _)) as [r|msg]; simpl; [|discriminate].
      destruct (Httpx.raise_for_status r) as [[]|e] eqn:E; simpl.
      * destruct (Httpx.json r) as [body|e] eqn:J; simpl; [discriminate|].
        unfold Httpx.json in J. destruct (payload r); [discriminate J|].
        destruct (text_body r); injection J as <-; discriminate.
      * unfold Httpx.raise_for_status in E. destruct (Httpx.is_success r); [discriminate E|].
        injection E as <-. discriminate.
    + simpl. destruct arguments as [| | | | |fields]; simpl in G;
        try (injection G as <-; discriminate).
      destruct (Py.lookup "page_id" fields); discriminate G.
Qed.

(** X1: the tools that [list_tools] advertises are exactly the names
    that [call_tool] dispatches: a call ends with the unknown-tool error if
    and only if its name is not in the list, whatever the arguments and the
    upstream. *)
Theorem X1_listed_tools_are_the_dispatched_ones :
  forall (g : globals) (W : Type) (up : upstream W) (w : W)
         (name : string) (arguments : json),
    In name (map tool_name listed_tools)
    <-> snd (run up w (call_tool g name arguments))
        <> Err (ValueError ("Unknown tool: " ++ name)).
Proof.
  intros g W up w name arguments. split.
  - intros [<- | [<- | []]]; apply known_tool_outcome; auto.
  - intros H.
    destruct (String.eqb name "search_content") eqn:Hs.
    + apply String.eqb_eq in Hs. subst. now left.
    + destruct (String.eqb name "get_page") eqn:Hp.
      * apply String.eqb_eq in Hp. subst. right. now left.
      * exfalso. apply H. now rewrite run_call_other.
Qed.

(** X2: the argument that a listed tool's input schema marks as
    required is the one [call_tool] insists on: for every listed tool and
    every property under [required] in its schema, an arguments object
    without that property is refused with a ValueError before any call is
    made. *)
Theorem X2_required_schema_argument_enforced :
  forall (g : globals) (W : Type) (up : upstream W) (w : W)
         (t : Tool) (prop : string) (fields : list (string * json)),
    In t listed_tools ->
    In prop (schema_required (inputSchema t)) ->
    ~ In prop (map fst fields) ->
    exists msg,
      run up w (call_tool g (tool_name t) (JObj fields)) = (w, [], Err (ValueError msg)).
Proof.
  intros g W up w t prop fields Ht Hprop Hmiss.
  apply lookup_none_iff in Hmiss.
  destruct Ht as [<- | [<- | []]]; simpl in Hprop; destruct Hprop as [<- | []].
  - exists "Query parameter is required".
    rewrite run_call_search. simpl. now rewrite Hmiss.
  - exists "Page ID parameter is required".
    rewrite run_call_get_page. simpl. now rewrite Hmiss.
Qed.

Lemma X2_required_schema_argument_enforced_witness :
  exists msg,
    run (Sample.always (Answered Sample.found)) tt
        (call_tool Sample.g "get_page" (JObj [("id", JStr "12345")]))
    = (tt, [], Err (ValueError msg)).
Proof.
  refine (@X2_required_schema_argument_enforced Sample.g unit
            (Sample.always (Answered Sample.found)) tt
            {| tool_name := "get_page";
               tool_description := "Get Confluence page content by ID";
               inputSchema := string_schema "page_id" "Confluence page ID" |}
            "page_id" [("id", JStr "12345")] _ _ _).
  - right. left. reflexivity.
  - left. reflexivity.
  - simpl. intros [H | []]. discriminate H.
Defined.

(** ** The resource listing, entry by entry *)

Lemma comprehension_ok {A B : Type} (f : A -> result B) (l : list A) (l' : list B) :
  comprehension f l = Ok l' -> Forall2 (fun x y => f x = Ok y) l l'.
Proof.
  revert l'. induction l as [|x l IH]; simpl; intros l'.
  - intros [= <-]. constructor.
  - destruct (f x) as [y|e] eqn:Hx; simpl; [|discriminate].
    destruct (comprehension f l) as [ys|e]; simpl; [|discriminate].
    intros [= <-]. constructor; [exact Hx | now apply IH].
Qed.

(** The comprehension stops at the first element that raises. *)
Lemma comprehension_first_error {A B : Type} (f : A -> result B)
  (good rest : list A) (bad : A) (e : exception) :
  Forall (fun x => exists y, f x = Ok y) good ->
  f bad = Err e ->
  comprehension f (good ++ bad :: rest) = Err e.
Proof.
  intros Hgood Hbad. induction Hgood as [|x good [y Hx] _ IH]; simpl.
  - now rewrite Hbad.
  - now rewrite Hx, IH.
Qed.

(** What a converted entry looks like. *)
Lemma space_resource_ok (space : json) (res : Resource) :
  space_resource space = Ok res ->
  exists key nm,
    Py.getitem space "key" = Ok key /\
    Py.getitem space "name" = Ok nm /\
    uri res = Url.spaces (Py.str key) /\
    name res = "Space: " ++ Py.str nm /\
    mimeType res = "application/json".
Proof.
  unfold space_resource.
  destruct (Py.getitem space "key") as [key|e]; simpl; [|discriminate].
  destruct (Py.getitem space "name") as [nm|e]; simpl; [|discriminate].
  destruct (Py.get space "description" (JObj [])) as [d|e]; simpl; [|discriminate].
  destruct (Py.get d "plain" (JObj [])) as [p|e]; simpl; [|discriminate].
  destruct (Py.get p "value" (JStr EmptyString)) as [v|e]; simpl; [|discriminate].
  unfold Resource_new. intros H. exists key, nm.
  destruct v; try discriminate H; injection H as <-; repeat split.
Qed.

(** X9: whenever the space listing succeeds on an array of entries,
    whatever the entries hold, it has one resource per entry in the same
    order, and each resource has the name [Space: ] followed by the text
    of the entry's name, the mimeType [application/json], and as uri the
    URL that [confluence://spaces/] followed by the text of the entry's
    key is parsed into, which is that very text when the text of the key
    is a plain key. *)
Theorem X9_listing_shape :
  forall (g : globals) (W : Type) (up : upstream W) (w : W)
         (r : Response) (body : json) (spaces : list json) (l : list Resource),
    snd (up w (space_listing_call g)) = Answered r ->
    payload r = Some body ->
    Py.getitem body "results" = Ok (JArr spaces) ->
    snd (run up w (list_resources g)) = Ok l ->
    Forall2 (fun space res =>
               exists key nm,
                 Py.getitem space "key" = Ok key /\
                 Py.getitem space "name" = Ok nm /\
                 uri res = Url.spaces (Py.str key) /\
                 (plain_key (Py.str key) = true ->
                  uri res = "confluence://spaces/" ++ Py.str key) /\
                 name res = "Space: " ++ Py.str nm /\
                 mimeType res = "application/json") spaces l.
Proof.
  intros g W up w r body spaces l Hup Hbody Hres.
  rewrite (outcome_list_resources up g w Hup). simpl.
  unfold Httpx.json. rewrite Hbody. simpl. rewrite Hres. simpl.
  intros H. apply comprehension_ok in H.
  eapply Forall2_impl; [|exact H].
  intros space res Hx.
  destruct (space_resource_ok space Hx) as (key & nm & Hk & Hn & Hu & Hname & Hm).
  exists key, nm. repeat split; try assumption.
  intros Hplain. now rewrite Hu, spaces_plain_key.
Qed.

Lemma X9_listing_shape_witness :
  Forall2 (fun space res =>
             exists key nm,
               Py.getitem space "key" = Ok key /\
               Py.getitem space "name" = Ok nm /\
               uri res = Url.spaces (Py.str key) /\
               (plain_key (Py.str key) = true ->
                uri res = "confluence://spaces/" ++ Py.str key) /\
               name res = "Space: " ++ Py.str nm /\
               mimeType res = "application/json")
          [Fixtures.null_value; JObj [("key", JInt 7); ("name", JNull)];
           JObj [("key", JArr [JInt 1; JInt 2]); ("name", JStr "Pair")]]
          [ {| uri := "confluence://spaces/DOC"; name := "Space: Docs";
               description := None; mimeType := "application/json" |};
            {| uri := "confluence://spaces/7"; name := "Space: None";
               description := Some EmptyString; mimeType := "application/json" |};
            {| uri := "confluence://spaces/[1,%202]"; name := "Space: Pair";
               description := Some EmptyString; mimeType := "application/json" |} ].
Proof.
  refine (@X9_listing_shape Sample.g unit
            (Sample.always (Answered (mkResponse 200 (Some (JObj [("results",
               JArr [Fixtures.null_value; JObj [("key", JInt 7); ("name", JNull)];
                     JObj [("key", JArr [JInt 1; JInt 2]); ("name", JStr "Pair")]])])))))
            tt _ _ _ _ eq_refl eq_refl eq_refl eq_refl).
Defined.

(** X10: the listing is all or nothing.  If an entry cannot be
    converted, the whole call ends with the exception of the first such
    entry, and the entries that could be converted are not returned. *)
Theorem X10_listing_all_or_nothing :
  forall (g : globals) (W : Type) (up : upstream W) (w : W)
         (r : Response) (body : json) (good rest : list json) (bad : json)
         (e : exception),
    snd (up w (space_listing_call g)) = Answered r ->
    payload r = Some body ->
    Py.getitem body "results" = Ok (JArr (good ++ bad :: rest)) ->
    Forall (fun space => exists res, space_resource space = Ok res) good ->
    space_resource bad = Err e ->
    snd (run up w (list_resources g)) = Err e.
Proof.
  intros g W up w r body good rest bad e Hup Hbody Hres Hgood Hbad.
  rewrite (outcome_list_resources up g w Hup). simpl.
  unfold Httpx.json. rewrite Hbody. simpl. rewrite Hres. simpl.
  now apply comprehension_first_error.
Qed.

Lemma X10_listing_all_or_nothing_witness :
  snd (run (Sample.always (Answered Fixtures.broken_listing)) tt (list_resources Sample.g))
  = Err (KeyError "key").
Proof.
  refine (@X10_listing_all_or_nothing Sample.g unit
            (Sample.always (Answered Fixtures.broken_listing)) tt
            Fixtures.broken_listing _ [Sample.eng] [Sample.ops] Fixtures.keyless
            (KeyError "key") eq_refl eq_refl eq_refl _ eq_refl).
  constructor; [|constructor]. eexists. reflexivity.
Defined.

(** X16: when [results] is not an array the listing does not return
    resources: it raises TypeError, except for the two empty iterables (an
    empty string and an empty object), for which it returns the empty
    list. *)
Theorem X16_results_not_an_array :
  forall (g : globals) (W : Type) (up : upstream W) (w : W)
         (r : Response) (body results : json),
    snd (up w (space_listing_call g)) = Answered r ->
    payload r = Some body ->
    Py.getitem body "results" = Ok results ->
    (forall spaces, results <> JArr spaces) ->
    (snd (run up w (list_resources g)) = Err TypeError /\
     results <> JStr EmptyString /\ results <> JObj [])
    \/
    (snd (run up w (list_resources g)) = Ok [] /\
     (results = JStr EmptyString \/ results = JObj [])).
Proof.
  intros g W up w r body results Hup Hbody Hres Harr.
  rewrite (outcome_list_resources up g w Hup). simpl.
  unfold Httpx.json. rewrite Hbody. simpl. rewrite Hres. simpl.
  destruct results as [| | |s|l|fields]; simpl.
  - left. repeat split; discriminate.
  - left. repeat split; discriminate.
  - left. repeat split; discriminate.
  - destruct s as [|c s]; simpl.
    + right. split; [reflexivity | now left].
    + left. repeat split; discriminate.
  - now destruct (Harr l).
  - destruct fields as [|[k v] fields]; simpl.
    + right. split; [reflexivity | now right].
    + left. repeat split; discriminate.
Qed.

Lemma X16_results_not_an_array_witness :
  (snd (run (Sample.always (Answered (mkResponse 200 (Some (JObj [("results", JNull)])))))
            tt (list_resources Sample.g)) = Err TypeError /\
   JNull <> JStr EmptyString /\ JNull <> JObj [])
  \/
  (snd (run (Sample.always (Answered (mkResponse 200 (Some (JObj [("results", JNull)])))))
            tt (list_resources Sample.g)) = Ok [] /\
   (JNull = JStr EmptyString \/ JNull = JObj [])).
Proof.
  refine (@X16_results_not_an_array Sample.g unit
            (Sample.always (Answered (mkResponse 200 (Some (JObj [("results", JNull)])))))
            tt _ _ JNull eq_refl eq_refl eq_refl _).
  intros spaces H. discriminate H.
Defined.

(** X8: a listed resource can be read back.  Reading the uri that the
    listing gave to an entry with a string key always issues exactly one
    content-listing call, for the trailing segment of that uri; when the
    key is a plain key the call is for that very key. *)
Theorem X8_listed_uri_reads_back :
  forall (g : globals) (W : Type) (up : upstream W) (w : W)
         (space : json) (res : Resource) (key : string),
    space_resource space = Ok res ->
    Py.getitem space "key" = Ok (JStr key) ->
    (exists seg,
       trailing_segment (uri res) seg /\
       calls_of up w (read_resource g (uri res)) = [space_content_call g seg])
    /\
    (plain_key key = true ->
       calls_of up w (read_resource g (uri res)) = [space_content_call g key]).
Proof.
  intros g W up w space res key Hres Hkey.
  destruct (space_resource_ok space Hres) as (k & nm & Hk & _ & Huri & _).
  rewrite Hkey in Hk. injection Hk as <-. cbn [Py.str] in Huri. rewrite Huri.
  destruct (spaces_is_space_uri key) as [rest Hrest].
  assert (Hpre : PyStr.startswith (Url.spaces key) spaces_prefix = true)
    by (apply startswith_true_iff; now exists rest).
  assert (Hslash : PyStr.contains "/"%char (Url.spaces key) = true)
    by (rewrite Hrest; reflexivity).
  destruct (trailing_segment_exists _ Hslash) as [seg Hseg].
  assert (Hcall : calls_of up w (read_resource g (Url.spaces key))
                  = [space_content_call g seg]).
  { unfold calls_of.
    now rewrite (run_read_space up g w _ (key := seg) Hpre (last_segment_trailing Hseg)). }
  split.
  - now exists seg.
  - intros Hplain. rewrite Hcall. f_equal. f_equal.
    apply (trailing_segment_unique Hseg).
    rewrite (spaces_plain_key _ Hplain).
    exists "confluence://spaces". split; [reflexivity|].
    apply no_slash_unreserved.
    unfold plain_key in Hplain. rewrite !andb_true_iff in Hplain. tauto.
Qed.

Lemma X8_listed_uri_reads_back_witness :
  (exists seg,
     trailing_segment "confluence://spaces/A%20B" seg /\
     calls_of (Sample.always (Answered Sample.found)) tt
              (read_resource Sample.g "confluence://spaces/A%20B")
     = [space_content_call Sample.g seg])
  /\
  calls_of (Sample.always (Answered Sample.found)) tt
           (read_resource Sample.g "confluence://spaces/ENG")
  = [space_content_call Sample.g "ENG"].
Proof.
  split.
  - refine (proj1 (@X8_listed_uri_reads_back Sample.g unit
              (Sample.always (Answered Sample.found)) tt Sample.spaced
              {| uri := "confluence://spaces/A%20B"; name := "Space: Alpha Beta";
                 description := Some EmptyString; mimeType := "application/json" |}
              "A B" eq_refl eq_refl)).
  - refine (proj2 (@X8_listed_uri_reads_back Sample.g unit
              (Sample.always (Answered Sample.found)) tt Sample.eng
              {| uri := "confluence://spaces/ENG"; name := "Space: Engineering";
                 description := Some "Team space"; mimeType := "application/json" |}
              "ENG" eq_refl eq_refl) eq_refl).
Defined.

(** The key that comes back is the one of the listed uri, not always
    the one of the entry: a blank comes back encoded, a dot segment comes
    back empty, and of a key with a slash only the last part comes back. *)
Example read_back_keys :
  map (fun key => calls_of (Sample.always (Answered Sample.found)) tt
                           (read_resource Sample.g (Url.spaces key)))
      ["A B"; ".."; "TEAM/ENG"]
  = [[space_content_call Sample.g "A%20B"];
     [space_content_call Sample.g EmptyString];
     [space_content_call Sample.g "ENG"]].
Proof. reflexivity. Qed.

(** ** Start-up and the header values *)

(** X11: with the three values set and non-empty, start-up has exactly
    two outcomes: the globals, when the account name and the token are
    ASCII, and UnicodeEncodeError otherwise.  The base URL is never
    encoded, so its characters do not matter. *)
Theorem X11_startup_needs_ascii_credentials :
  forall (env : environ) (url email token : string),
    env "CONFLUENCE_URL" = Some url ->
    env "CONFLUENCE_EMAIL" = Some email ->
    env "CONFLUENCE_API_TOKEN" = Some token ->
    url <> EmptyString -> email <> EmptyString -> token <> EmptyString ->
    Startup.startup env
    = if PyStr.isascii email && PyStr.isascii token
      then Ok {| CONFLUENCE_URL := url; EMAIL := email; API_TOKEN := token;
                 headers := [("Authorization", basic_auth email token);
                             ("Content-Type", "application/json")] |}
      else Err UnicodeEncodeError.
Proof.
  intros env url email token Eu Ee Et Hu He Ht.
  unfold Startup.startup, Base64.encode_ascii. rewrite Eu, Ee, Et.
  destruct url as [|cu url]; [now destruct Hu|].
  destruct email as [|ce email]; [now destruct He|].
  destruct token as [|ct token]; [now destruct Ht|].
  cbn [Startup.truthy Startup.all forallb andb negb Startup.fstr].
  change (String ce email ++ ":" ++ String ct token)
    with (String ce email ++ String ":" (String ct token)).
  rewrite isascii_app.
  change (PyStr.isascii (String ":" (String ct token)))
    with (PyStr.isascii (String ct token)).
  destruct (PyStr.isascii (String ce email) && PyStr.isascii (String ct token));
    reflexivity.
Qed.

Lemma X11_startup_needs_ascii_credentials_witness :
  Startup.startup Fixtures.env_url_accent
  = Ok {| CONFLUENCE_URL := String (ascii_of_N 233) ".example";
          EMAIL := "user"; API_TOKEN := "pass";
          headers := [("Authorization", basic_auth "user" "pass");
                      ("Content-Type", "application/json")] |}
  /\
  Startup.startup Fixtures.env_token_accent = Err UnicodeEncodeError.
Proof.
  split.
  - refine (@X11_startup_needs_ascii_credentials Fixtures.env_url_accent
              (String (ascii_of_N 233) ".example") "user" "pass"
              eq_refl eq_refl eq_refl _ _ _); intros H; discriminate H.
  - refine (@X11_startup_needs_ascii_credentials Fixtures.env_token_accent
              "https://wiki.example" "user" (String (ascii_of_N 233) "x")
              eq_refl eq_refl eq_refl _ _ _); intros H; discriminate H.
Defined.

Lemma alphabet_ascii (i : N) : (PyStr.code (Base64.alphabet i) < 128)%N.
Proof.
  unfold Base64.alphabet, PyStr.code.
  destruct (N.ltb_spec i 26); [rewrite N_ascii_embedding; lia|].
  destruct (N.ltb_spec i 52); [rewrite N_ascii_embedding; lia|].
  destruct (N.ltb_spec i 62); [rewrite N_ascii_embedding; lia|].
  destruct (N.eqb i 62); reflexivity.
Qed.

Lemma isascii_cons (c : ascii) (s : string) :
  (PyStr.code c < 128)%N -> PyStr.isascii s = true -> PyStr.isascii (String c s) = true.
Proof.
  intros Hc Hs. simpl. rewrite Hs, andb_true_r. now apply N.ltb_lt.
Qed.

(** The base64 text is ASCII, so [decode('ascii')] on line 26 cannot
    raise. *)
Lemma b64encode_isascii (l : list Byte.byte) :
  PyStr.isascii (Base64.b64encode l) = true.
Proof.
  assert (H : forall n (k : list Byte.byte), (List.length k < n)%nat ->
            PyStr.isascii (Base64.b64encode k) = true).
  { induction n as [|n IH]; intros k Hk; [lia|].
    destruct k as [|a [|b [|c k]]]; cbn [Base64.b64encode].
    - reflexivity.
    - repeat (apply isascii_cons; [first [apply alphabet_ascii | reflexivity]|]).
      reflexivity.
    - repeat (apply isascii_cons; [first [apply alphabet_ascii | reflexivity]|]).
      reflexivity.
    - repeat (apply isascii_cons; [apply alphabet_ascii|]).
      apply IH. simpl in Hk. lia. }
  apply (H (S (List.length l))). lia.
Qed.

Lemma list_byte_of_string_length (s : string) :
  List.length (list_byte_of_string s) = String.length s.
Proof.
  unfold list_byte_of_string. rewrite List.length_map.
  induction s as [|c s IH]; simpl; [reflexivity | now rewrite IH].
Qed.

Lemma length_append (s t : string) :
  String.length (s ++ t) = (String.length s + String.length t)%nat.
Proof. induction s as [|c s IH]; simpl; [reflexivity | now rewrite IH]. Qed.

(** X12: after a successful start-up every header name and value sent
    upstream is ASCII, and the Authorization value has 6 characters for
    [Basic ] plus four for every three characters of [email:token], rounded
    up. *)
Theorem X12_headers_are_ascii :
  forall (env : environ) (g : globals),
    Startup.startup env = Ok g ->
    Forall (fun kv => PyStr.isascii (fst kv) = true /\ PyStr.isascii (snd kv) = true)
           (headers g) /\
    exists v,
      header "Authorization" (headers g) = Some v /\
      String.length v
      = (6 + 4 * ((String.length (EMAIL g) + String.length (API_TOKEN g) + 3) / 3))%nat.
Proof.
  intros env g Hg.
  destruct (startup_ok env Hg) as (url & email & token & _ & _ & _ & ->).
  cbn [headers EMAIL API_TOKEN]. split.
  - apply Forall_cons; [split; [reflexivity|]
                       | apply Forall_cons; [split; reflexivity | apply Forall_nil]].
    cbn [snd]. unfold basic_auth. rewrite isascii_app, b64encode_isascii. reflexivity.
  - exists (basic_auth email token). split; [reflexivity|].
    unfold basic_auth. rewrite length_append, b64encode_length.
    rewrite list_byte_of_string_length, !length_append.
    change (String.length "Basic ") with 6%nat.
    change (String.length ":") with 1%nat.
    replace (String.length email + (1 + String.length token) + 2)%nat
      with (String.length email + String.length token + 3)%nat by lia.
    reflexivity.
Qed.

Lemma X12_headers_are_ascii_witness :
  Forall (fun kv => PyStr.isascii (fst kv) = true /\ PyStr.isascii (snd kv) = true)
         (headers Sample.g) /\
  exists v,
    header "Authorization" (headers Sample.g) = Some v /\
    String.length v
    = (6 + 4 * ((String.length (EMAIL Sample.g) + String.length (API_TOKEN Sample.g) + 3) / 3))%nat.
Proof.
  exact (@X12_headers_are_ascii Sample.env_ok Sample.g eq_refl).
Defined.

(** ** The text a handler returns *)

(** Structural induction on JSON values. *)
Lemma json_induction (P : json -> Prop) :
  P JNull ->
  (forall b, P (JBool b)) ->
  (forall z, P (JInt z)) ->
  (forall s, P (JStr s)) ->
  (forall items, Forall P items -> P (JArr items)) ->
  (forall fields, Forall (fun kv => P (snd kv)) fields -> P (JObj fields)) ->
  forall v, P v.
Proof.
  intros Hnull Hbool Hint Hstr Harr Hobj.
  fix IH 1. intros [|b|z|s|items|fields].
  - exact Hnull.
  - apply Hbool.
  - apply Hint.
  - apply Hstr.
  - apply Harr. induction items as [|x items IHitems]; constructor; [apply IH | exact IHitems].
  - apply Hobj. induction fields as [|[k x] fields IHfields]; constructor;
      [apply IH | exact IHfields].
Qed.

Lemma plain_text_app (s t : string) :
  plain_text (s ++ t) = plain_text s && plain_text t.
Proof.
  induction s as [|c s IH]; simpl; [reflexivity|].
  now rewrite IH, andb_assoc.
Qed.

Lemma plain_text_glue (s t : string) :
  plain_text s = true -> plain_text t = true -> plain_text (s ++ t) = true.
Proof. intros Hs Ht. now rewrite plain_text_app, Hs, Ht. Qed.

Lemma plain_text_flat_map (f : ascii -> string) (s : string) :
  (forall c, plain_text (f c) = true) -> plain_text (PyStr.flat_map f s) = true.
Proof.
  intros Hf. induction s as [|c s IH]; simpl; [reflexivity|].
  now apply plain_text_glue.
Qed.

(** Every character is written as itself when printable, and as an
    ASCII escape otherwise. *)
Lemma escape_char_plain (c : ascii) : plain_text (Json.escape_char c) = true.
Proof. destruct c as [[] [] [] [] [] [] [] []]; reflexivity. Qed.

Lemma encode_str_plain (s : string) : plain_text (Json.encode_str s) = true.
Proof.
  unfold Json.encode_str.
  change (String PyStr.dquote (PyStr.flat_map Json.escape_char s ++ String PyStr.dquote EmptyString))
    with (String PyStr.dquote EmptyString
          ++ PyStr.flat_map Json.escape_char s ++ String PyStr.dquote EmptyString).
  repeat apply plain_text_glue; try reflexivity.
  apply plain_text_flat_map, escape_char_plain.
Qed.

Lemma of_int_plain (z : Z) : plain_text (PyStr.of_int z) = true.
Proof.
  assert (U : forall d, plain_text (NilEmpty.string_of_uint d) = true)
    by (induction d; simpl; assumption || reflexivity).
  assert (V : forall d, plain_text (NilZero.string_of_uint d) = true)
    by (intros d; destruct d; try reflexivity; apply U).
  unfold PyStr.of_int, NilZero.string_of_int.
  destruct (Z.to_int z) as [d|d]; [apply V|].
  simpl. apply V.
Qed.

Lemma newline_indent_plain (indent level : nat) :
  plain_text (Json.newline_indent indent level) = true.
Proof.
  unfold Json.newline_indent. simpl.
  induction (indent * level)%nat as [|n IH]; simpl; [reflexivity | exact IH].
Qed.

(** Whatever the value, the pretty-printed text is made of printable
    ASCII characters and line feeds. *)
Lemma encode_plain (indent : nat) (v : json) :
  forall level, plain_text (Json.encode indent level v) = true.
Proof.
  induction v as [|b|z|s|items IH|fields IH] using json_induction; intros level.
  - reflexivity.
  - now destruct b.
  - apply of_int_plain.
  - apply encode_str_plain.
  - destruct IH as [|x items Hx Hitems]; [reflexivity|].
    cbn [Json.encode].
    apply plain_text_glue; [reflexivity|].
    apply plain_text_glue; [apply newline_indent_plain|].
    apply plain_text_glue; [apply Hx|].
    apply plain_text_glue; [|apply plain_text_glue;
                              [apply newline_indent_plain | reflexivity]].
    induction Hitems as [|y items Hy _ IHitems]; [reflexivity|].
    apply plain_text_glue; [reflexivity|].
    apply plain_text_glue; [apply newline_indent_plain|].
    apply plain_text_glue; [apply Hy | exact IHitems].
  - destruct IH as [|[k x] fields Hx Hfields]; [reflexivity|].
    cbn [Json.encode]. simpl snd in Hx.
    apply plain_text_glue; [reflexivity|].
    apply plain_text_glue; [apply newline_indent_plain|].
    apply plain_text_glue; [apply encode_str_plain|].
    apply plain_text_glue; [reflexivity|].
    apply plain_text_glue; [apply Hx|].
    apply plain_text_glue; [|apply plain_text_glue;
                              [apply newline_indent_plain | reflexivity]].
    induction Hfields as [|[k' y] fields Hy _ IHfields]; [reflexivity|].
    simpl snd in Hy.
    apply plain_text_glue; [reflexivity|].
    apply plain_text_glue; [apply newline_indent_plain|].
    apply plain_text_glue; [apply encode_str_plain|].
    apply plain_text_glue; [reflexivity|].
    apply plain_text_glue; [apply Hy | exact IHfields].
Qed.

Lemma dumps_plain (v : json) (indent : nat) : plain_text (Json.dumps v indent) = true.
Proof. apply encode_plain. Qed.

(** X14: every text that [read_resource] or [call_tool] returns is made
    of printable ASCII characters and line feeds only, whatever the wiki
    sent: characters outside that range reach the host as escapes. *)
Theorem X14_returned_text_is_plain_ascii :
  forall (g : globals) (W : Type) (up : upstream W) (w : W),
    (forall uri s,
       snd (run up w (read_resource g uri)) = Ok s -> plain_text s = true) /\
    (forall name arguments s,
       snd (run up w (call_tool g name arguments)) = Ok s -> plain_text s = true).
Proof.
  intros g W up w. split.
  - intros uri s.
    destruct (run_read_resource_cases up g w uri)
      as [(key & _ & _ & ->) | [(id & _ & _ & _ & ->) | (_ & _ & ->)]]; simpl.
    + destruct (received _) as [r|e]; simpl; [|discriminate].
      destruct (Httpx.json r) as [body|e]; simpl; [|discriminate].
      intros [= <-]. apply dumps_plain.
    + destruct (received _) as [r|e]; simpl; [|discriminate].
      destruct (Httpx.raise_for_status r) as [[]|e]; simpl; [|discriminate].
      destruct (Httpx.json r) as [body|e]; simpl; [|discriminate].
      intros [= <-]. apply dumps_plain.
    + discriminate.
  - intros name arguments s.
    destruct (String.eqb name "search_content") eqn:Hs.
    + apply String.eqb_eq in Hs. subst name. rewrite run_call_search.
      destruct (Py.get arguments "query" JNull) as [query|e]; [|discriminate].
      destruct (Py.truthy query); simpl; [|discriminate].
      destruct (received _) as [r|e]; simpl; [|discriminate].
      destruct (Httpx.raise_for_status r) as [[]|e]; simpl; [|discriminate].
      destruct (Httpx.json r) as [body|e]; simpl; [|discriminate].
      destruct (Py.getitem body "results") as [results|e]; simpl; [|discriminate].
      intros [= <-]. apply dumps_plain.
    + destruct (String.eqb name "get_page") eqn:Hp.
      * apply String.eqb_eq in Hp. subst name. rewrite run_call_get_page.
        destruct (Py.get arguments "page_id" JNull) as [page_id|e]; [|discriminate].
        destruct (Py.truthy page_id); simpl; [|discriminate].
        destruct (received _) as [r|e]; simpl; [|discriminate].
        destruct (Httpx.raise_for_status r) as [[]|e]; simpl; [|discriminate].
        destruct (Httpx.json r) as [body|e]; simpl; [|discriminate].
        intros [= <-]. apply dumps_plain.
      * rewrite run_call_other by assumption. discriminate.
Qed.
